(** * A shallow embedding of [lib/new/tox.js]

    The file is the binding of the Tox engine (libtoxcore) for Node: it
    fills the options struct, creates the engine instance through the
    foreign-function interface, and offers bootstrap, iterate, kill and a
    timer-driven iterate loop.

    What runs outside the file is kept abstract: the native engine, the
    module [util] ([parseProxy], [size_t]), the table [consts], the
    global scope of the runtime, and the contents of memory that has
    been allocated and not yet written. *)

From Stdlib Require Import ZArith QArith Qround Bool List String Ascii Lia.
From Stdlib Require Import Strings.Byte.
From Stdlib Require Import DecimalString DecimalPos DecimalZ.
Import ListNotations.
Set Warnings "-register-all".
Local Open Scope string_scope.
Local Open Scope list_scope.
Local Open Scope Z_scope.

(** ** The values of the runtime *)

Module JS.

(** A number is a double: not-a-number, an infinity, or a finite value,
    which is a rational.  The two zeros are not told apart. *)
Inductive Num : Type :=
| NaN
| PosInf
| NegInf
| Fin (q : Q).

(** Strings are sequences of code units below 256.  Functions and
    wrapper objects are left out. *)
Inductive Value : Type :=
| VUndefined
| VNull
| VBool (b : bool)
| VNumber (n : Num)
| VString (s : string)
| VBuffer (bytes : list byte)
| VObject (props : list (string * Value)).

Inductive Error : Type :=
| ReferenceError (ident : string)
| TypeError (msg : string)
| MkError (msg : string).

Inductive Completion (A : Type) : Type :=
| Normal (a : A)
| Throw (e : Error).
Arguments Normal {A} a.
Arguments Throw {A} e.

(** [!!v] *)
Definition ToBoolean (v : Value) : bool :=
  match v with
  | VUndefined | VNull => false
  | VBool b => b
  | VNumber NaN => false
  | VNumber (Fin q) => negb (Qeq_bool q 0)
  | VNumber _ => true
  | VString s => negb (String.eqb s "")
  | VBuffer _ | VObject _ => true
  end.

Fixpoint assoc (k : string) (props : list (string * Value)) : Value :=
  match props with
  | [] => VUndefined
  | (k', v) :: rest => if String.eqb k k' then v else assoc k rest
  end.

(** [v[k]] for the keys the file reads ([ipv6], [udp], [proxy], [path],
    [type], [address], [port]): none of them is found on a prototype. *)
Definition get (v : Value) (k : string) : Completion Value :=
  match v with
  | VUndefined | VNull =>
      Throw (TypeError ("Cannot read property '" ++ k ++ "'")%string)
  | VObject props => Normal (assoc k props)
  | _ => Normal VUndefined
  end.

(** [v !== undefined] *)
Definition is_defined (v : Value) : bool :=
  match v with VUndefined => false | _ => true end.

(** underscore's type tests *)
Definition isString (v : Value) : bool :=
  match v with VString _ => true | _ => false end.
Definition isNumber (v : Value) : bool :=
  match v with VNumber _ => true | _ => false end.
Definition isObject (v : Value) : bool :=
  match v with VObject _ | VBuffer _ => true | _ => false end.

(** Case folding of a pattern with the [i] flag and no [u] flag: only
    the letters A to Z fold onto a to z. *)
Definition fold_case (c : ascii) : ascii :=
  let n := nat_of_ascii c in
  if (65 <=? n)%nat && (n <=? 90)%nat then ascii_of_nat (n + 32) else c.

Fixpoint lower (s : string) : string :=
  match s with
  | EmptyString => EmptyString
  | String c rest => String (fold_case c) (lower rest)
  end.

(** [/^http$/i.test(s)] *)
Definition test_http (s : string) : bool := String.eqb (lower s) "http".

(** [/^socks5?$/i.test(s)] *)
Definition test_socks5 (s : string) : bool :=
  String.eqb (lower s) "socks" || String.eqb (lower s) "socks5".

(** ['' + n] for an integer. *)
Definition string_of_Z (z : Z) : string :=
  NilZero.string_of_int (Z.to_int z).

(** A state-and-exception monad: what was written before a throw stays
    written. *)
Definition M (S A : Type) : Type := S -> Completion A * S.

Definition ret {S A} (a : A) : M S A := fun s => (Normal a, s).
Definition throw {S A} (e : Error) : M S A := fun s => (Throw e, s).
Definition bind {S A B} (c : M S A) (k : A -> M S B) : M S B :=
  fun s =>
    match c s with
    | (Normal a, s') => k a s'
    | (Throw e, s') => (Throw e, s')
    end.
Definition lift {S A} (c : Completion A) : M S A := fun s => (c, s).
Definition read {S} : M S S := fun s => (Normal s, s).
Definition modify {S} (f : S -> S) : M S unit := fun s => (Normal tt, f s).

End JS.
Import JS.

Declare Scope js_scope.
Delimit Scope js_scope with js.
Notation "x <- c ;; k" := (bind c (fun x => k))
  (at level 61, c at next level, right associativity) : js_scope.
Notation "c ;; k" := (bind c (fun _ => k))
  (at level 61, right associativity) : js_scope.
Local Open Scope js_scope.

(** ** Buffers *)

Module Buffer.

Definition byte_of_nat (n : nat) : byte :=
  match Byte.of_N (N.of_nat n) with Some b => b | None => x00 end.

(** The UTF-8 encoding of one code unit below 256: one byte below 128,
    two bytes from 128 on. *)
Definition utf8_char (c : ascii) : list byte :=
  let n := nat_of_ascii c in
  if (n <? 128)%nat then [byte_of_nat n]
  else [byte_of_nat (192 + n / 64); byte_of_nat (128 + n mod 64)].

Fixpoint utf8 (s : string) : list byte :=
  match s with
  | EmptyString => []
  | String c rest => utf8_char c ++ utf8 rest
  end.

(** The bytes of the longest prefix of [s] whose whole characters fit
    in [room] bytes: a character is written whole or not at all. *)
Fixpoint utf8_fit (room : nat) (s : string) : list byte :=
  match s with
  | EmptyString => []
  | String c rest =>
      let bs := utf8_char c in
      if (List.length bs <=? room)%nat
      then bs ++ utf8_fit (room - List.length bs) rest
      else []
  end.

(** [buf.fill(0)] *)
Definition fill0 (buf : list byte) : list byte :=
  repeat x00 (List.length buf).

(** [buf.write(s, 0, len)]: at most [len] bytes, and never past the end
    of the buffer. *)
Definition write (buf : list byte) (s : string) (len : nat) : list byte :=
  let bs := utf8_fit (Nat.min len (List.length buf)) s in
  bs ++ skipn (List.length bs) buf.

End Buffer.

(** ** The options struct *)

(** [ToxOptions]: the struct the engine reads at creation. *)
Record ToxOptions : Type := {
  ipv6enabled : Z;
  udp_disabled : Z;
  proxy_type : Z;
  proxy_address : list byte;
  proxy_port : Z;
  start_port : Z;
  end_port : Z
}.

Definition set_ipv6enabled (v : Z) (o : ToxOptions) : ToxOptions :=
  {| ipv6enabled := v; udp_disabled := udp_disabled o;
     proxy_type := proxy_type o; proxy_address := proxy_address o;
     proxy_port := proxy_port o; start_port := start_port o;
     end_port := end_port o |}.
Definition set_udp_disabled (v : Z) (o : ToxOptions) : ToxOptions :=
  {| ipv6enabled := ipv6enabled o; udp_disabled := v;
     proxy_type := proxy_type o; proxy_address := proxy_address o;
     proxy_port := proxy_port o; start_port := start_port o;
     end_port := end_port o |}.
Definition set_proxy_type (v : Z) (o : ToxOptions) : ToxOptions :=
  {| ipv6enabled := ipv6enabled o; udp_disabled := udp_disabled o;
     proxy_type := v; proxy_address := proxy_address o;
     proxy_port := proxy_port o; start_port := start_port o;
     end_port := end_port o |}.
Definition set_proxy_address (v : list byte) (o : ToxOptions) : ToxOptions :=
  {| ipv6enabled := ipv6enabled o; udp_disabled := udp_disabled o;
     proxy_type := proxy_type o; proxy_address := v;
     proxy_port := proxy_port o; start_port := start_port o;
     end_port := end_port o |}.
Definition set_proxy_port (v : Z) (o : ToxOptions) : ToxOptions :=
  {| ipv6enabled := ipv6enabled o; udp_disabled := udp_disabled o;
     proxy_type := proxy_type o; proxy_address := proxy_address o;
     proxy_port := v; start_port := start_port o;
     end_port := end_port o |}.

(** The store of an integer into a [uint8] or [uint16] field: a value
    out of the field's range is refused with an exception. *)
Definition store_uint (bits : Z) (v : Z) : Completion Z :=
  if (0 <=? v) && (v <? 2 ^ bits) then Normal v
  else Throw (TypeError "value is out of bounds").

(** The table [consts], which is not part of the file. *)
Record Consts : Type := {
  TOX_PROXY_TYPE_NONE : Z;
  TOX_ERR_NEW_OK : Z;
  TOX_ERR_BOOTSTRAP_OK : Z
}.

(** The values the native header gives these constants. *)
Definition toxcore_consts : Consts :=
  {| TOX_PROXY_TYPE_NONE := 0; TOX_ERR_NEW_OK := 0;
     TOX_ERR_BOOTSTRAP_OK := 0 |}.

Definition u8 (b : byte) : Z := Z.of_N (Byte.to_N b).

(** [new ToxOptions()]: the struct is allocated and not cleared, so each
    field starts with what the memory [mem] held (the builder clears
    [proxy_address] itself).  In the layout of the native struct the
    three [uint8] fields are at offsets 0 to 2, the array
    [proxy_address] is the 256 bytes from offset 3, and the three
    [uint16] fields are at offsets 260, 262 and 264. *)
Definition new_ToxOptions (mem : nat -> byte) : ToxOptions :=
  {| ipv6enabled := u8 (mem 0%nat);
     udp_disabled := u8 (mem 1%nat);
     proxy_type := u8 (mem 2%nat);
     proxy_address := map mem (seq 3 256);
     proxy_port := u8 (mem 260%nat) + 256 * u8 (mem 261%nat);
     start_port := u8 (mem 262%nat) + 256 * u8 (mem 263%nat);
     end_port := u8 (mem 264%nat) + 256 * u8 (mem 265%nat) |}.

(** The global scope of Node: it binds none of the names that the file
    reads without declaring them ([TOX_PROXY_NONE], [TOX_PROXY_TYPE_NONE],
    [TOX_PROXY_TYPE_HTTP], [TOX_PROXY_TYPE_SOCKS5]). *)
Definition node_global : string -> option Z := fun _ => None.

(** ** What the file takes from outside *)

(** The parts of the platform that the file uses and does not define. *)
Record Platform : Type := {
  (** the table [consts] *)
  consts : Consts;
  (** the global scope, where an identifier that the file does not
      declare is looked up *)
  global : string -> option Z;
  (** [util.parseProxy] *)
  parseProxy : string -> Completion Value;
  (** [util.size_t(n).deref()] *)
  size_t : Z -> Z;
  (** what memory holds when it is allocated *)
  uninit : nat -> byte;
  (** the store into a [uint16] field of a number that is not an integer
      of the field's range: it differs between versions of the runtime *)
  store_irregular : Num -> Completion Z;
  (** the numeric value of a string, and of an object *)
  StringToNumber : string -> Num;
  ObjectToNumber : Value -> Num;
  (** buffertools' [fromHex] on a content that is empty or is not an even
      number of hex digits *)
  fromHex_irregular : list byte -> Completion Value
}.

(** A native pointer. *)
Definition Ptr : Type := Z.

(** The native functions that [createLibrary] binds, over the state
    [Eng] of the engine; [tox_add_tcp_relay] and the three
    [tox_options_*] functions, which are bound and never called, are
    left out.  A status is the value the function leaves where its last
    argument points, read as [uint8]. *)
Record Library (Eng : Type) : Type := {
  tox_bootstrap : Eng -> Ptr -> list byte -> Value -> Value -> Eng * (bool * Z);
  tox_iteration_interval : Eng -> Ptr -> Eng * Z;
  tox_iterate : Eng -> Ptr -> Eng;
  tox_kill : Eng -> Ptr -> Eng;
  tox_new : Eng -> option ToxOptions -> Z -> Eng * (Ptr * Z);
  tox_get_savedata : Eng -> Ptr -> Eng * list byte;
  tox_get_savedata_size : Eng -> Ptr -> Eng * nat
}.
Arguments tox_bootstrap {Eng}.
Arguments tox_iteration_interval {Eng}.
Arguments tox_iterate {Eng}.
Arguments tox_kill {Eng}.
Arguments tox_new {Eng}.
Arguments tox_get_savedata {Eng}.
Arguments tox_get_savedata_size {Eng}.

(** A call that crossed into the engine, with what it returned. *)
Inductive Call : Type :=
| Call_tox_new (options : option ToxOptions) (length : Z)
    (handle : Ptr) (status : Z)
| Call_tox_bootstrap (handle : Ptr) (address : list byte)
    (port publicKey : Value) (result : bool) (status : Z)
| Call_tox_iteration_interval (handle : Ptr) (result : Z)
| Call_tox_iterate (handle : Ptr)
| Call_tox_kill (handle : Ptr)
| Call_tox_get_savedata_size (handle : Ptr) (result : nat)
| Call_tox_get_savedata (handle : Ptr) (room : nat).

(** Hex digits, as buffertools reads them. *)
Definition hex_value (b : byte) : option Z :=
  let n := u8 b in
  if (48 <=? n) && (n <=? 57) then Some (n - 48)
  else if (97 <=? n) && (n <=? 102) then Some (n - 87)
  else if (65 <=? n) && (n <=? 70) then Some (n - 55)
  else None.

Definition byte_of_Z (z : Z) : byte :=
  match Byte.of_N (Z.to_N z) with Some b => b | None => x00 end.

Fixpoint hex_decode (bs : list byte) : option (list byte) :=
  match bs with
  | [] => Some []
  | a :: b :: rest =>
      match hex_value a, hex_value b, hex_decode rest with
      | Some x, Some y, Some r => Some (byte_of_Z (16 * x + y) :: r)
      | _, _, _ => None
      end
  | _ => None
  end.

(** ** The binding *)

Section Binding.

Variable Eng : Type.
Variable P : Platform.

(** [ffi.Library(path, declarations)] *)
Variable ffi_Library : Value -> Completion (Library Eng).

(** *** The configuration builder *)

(** The read of an identifier that the file does not declare: it is
    looked up in the global scope, and a name that is not bound there
    throws. *)
Definition free_identifier {S} (x : string) : M S Z :=
  match global P x with
  | Some v => ret v
  | None => throw (ReferenceError x)
  end.

(** [options.proxy_port = n] *)
Definition store_number (n : Num) : Completion Z :=
  match n with
  | Fin q =>
      let z := Qfloor q in
      if Qeq_bool q (inject_Z z) && (0 <=? z) && (z <? 2 ^ 16)
      then Normal z
      else store_irregular P n
  | _ => store_irregular P n
  end.

(** [options.proxy_type = v] *)
Definition assign_proxy_type (v : Z) : M ToxOptions unit :=
  b <- lift (store_uint 8 v) ;;
  modify (set_proxy_type b).

(** [Tox.prototype._setProxyToToxOptions] *)
Definition _setProxyToToxOptions (opts : Value) : M ToxOptions unit :=
  proxy <- lift (get opts "proxy") ;;
  proxy <- match proxy with
           | VString s => lift (parseProxy P s)
           | _ => ret proxy
           end ;;
  if isObject proxy then
    none <- free_identifier "TOX_PROXY_NONE" ;;
    assign_proxy_type none ;;
    type <- lift (get proxy "type") ;;
    match type with
    | VString t =>
        if test_http t then
          v <- free_identifier "TOX_PROXY_TYPE_HTTP" ;;
          assign_proxy_type v
        else if test_socks5 t then
          v <- free_identifier "TOX_PROXY_TYPE_SOCKS5" ;;
          assign_proxy_type v
        else ret tt
    | _ => ret tt
    end ;;
    options <- read ;;
    none <- free_identifier "TOX_PROXY_TYPE_NONE" ;;
    if negb (proxy_type options =? none) then
      address <- lift (get proxy "address") ;;
      match address with
      | VString a =>
          modify (fun o =>
            set_proxy_address
              (Buffer.write (proxy_address o) a
                 (List.length (proxy_address o) - 1)) o)
      | _ => ret tt
      end ;;
      port <- lift (get proxy "port") ;;
      match port with
      | VNumber n =>
          p <- lift (store_number n) ;;
          modify (set_proxy_port p)
      | _ => ret tt
      end
    else ret tt
  else ret tt.

(** The body of [Tox.prototype._createToxOptions], run on the struct
    that [new ToxOptions()] gave. *)
Definition _createToxOptions_body (opts : Value) : M ToxOptions ToxOptions :=
  ipv6 <- lift (get opts "ipv6") ;;
  udp <- lift (get opts "udp") ;;
  modify (fun o => set_proxy_address (Buffer.fill0 (proxy_address o)) o) ;;
  assign_proxy_type (TOX_PROXY_TYPE_NONE (consts P)) ;;
  p <- lift (store_uint 16 0) ;;
  modify (set_proxy_port p) ;;
  let ipv6 := if is_defined ipv6 then ToBoolean ipv6 else false in
  let udp := if is_defined udp then ToBoolean udp else true in
  modify (set_ipv6enabled (if ipv6 then 1 else 0)) ;;
  modify (set_udp_disabled (if udp then 0 else 1)) ;;
  _setProxyToToxOptions opts ;;
  read.

(** [Tox.prototype._createToxOptions]: the completion, and the struct
    as the call left it. *)
Definition _createToxOptions (opts : Value)
  : Completion ToxOptions * ToxOptions :=
  _createToxOptions_body opts (new_ToxOptions (uninit P)).

(** *** The world outside the object *)

(** A timer that [setInterval] made: [iterateSync] bound to the object
    that owns [timer_library] and [timer_handle], and the delay as it
    was passed. *)
Record Timer : Type := {
  timer_id : nat;
  timer_library : Library Eng;
  timer_handle : Ptr;
  timer_wait : Value
}.

Record World : Type := {
  engine : Eng;
  calls : list Call;
  timers : list Timer;
  next_timer : nat
}.

(** The engine moved to [e], and the call [c] is on record. *)
Definition crossed (e : Eng) (c : Call) (w : World) : World :=
  {| engine := e; calls := calls w ++ [c];
     timers := timers w; next_timer := next_timer w |}.

(** [setInterval(iterateSync.bind(this), wait)]: a new timer object. *)
Definition setInterval (lib : Library Eng) (h : Ptr) (wait : Value)
  : M World nat :=
  fun w =>
    (Normal (next_timer w),
     {| engine := engine w; calls := calls w;
        timers := timers w ++
                  [{| timer_id := next_timer w; timer_library := lib;
                      timer_handle := h; timer_wait := wait |}];
        next_timer := S (next_timer w) |}).

(** [clearInterval(timer)] *)
Definition clearInterval (id : nat) : M World unit :=
  modify (fun w =>
    {| engine := engine w; calls := calls w;
       timers := filter (fun t => negb (Nat.eqb (timer_id t) id)) (timers w);
       next_timer := next_timer w |}).

(** The object: [this._interval] is [None] for [undefined], and a timer
    object is never falsy. *)
Record Tox : Type := {
  _library : Library Eng;
  _handle : Ptr;
  _interval : option nat
}.

Definition set_interval (i : option nat) (this : Tox) : Tox :=
  {| _library := _library this; _handle := _handle this; _interval := i |}.

(** *** Creation *)

(** [Tox.prototype.createLibrary] *)
Definition createLibrary (libpath : Value) : Completion (Library Eng) :=
  let libpath := if ToBoolean libpath then libpath else VString "libtoxcore" in
  ffi_Library libpath.

(** [Tox.prototype._checkToxNewError] *)
Definition _checkToxNewError (val : Z) : Completion unit :=
  if negb (val =? TOX_ERR_NEW_OK (consts P))
  then Throw (MkError ("tox_new error: " ++ string_of_Z val)%string)
  else Normal tt.

(** [Tox.prototype._initNew], on an object whose [_library] is [lib]:
    the handle it stores in [this._handle]. *)
Definition _initNew (lib : Library Eng) (options : option ToxOptions)
  : M World Ptr :=
  let size := size_t P 0 in
  handle_errorValue <-
    (fun w =>
       let '(e, (h, st)) := tox_new lib (engine w) options size in
       (Normal (h, st), crossed e (Call_tox_new options size h st) w)) ;;
  lift (_checkToxNewError (snd handle_errorValue)) ;;
  ret (fst handle_errorValue).

(** The constructor [Tox]. *)
Definition Tox_new (opts : Value) : M World Tox :=
  let opts := if negb (ToBoolean opts) then VObject [] else opts in
  libpath <- lift (get opts "path") ;;
  toxOptions <- lift (fst (_createToxOptions opts)) ;;
  lib <- lift (createLibrary libpath) ;;
  h <- _initNew lib (Some toxOptions) ;;
  ret {| _library := lib; _handle := h; _interval := None |}.

(** [Tox.prototype.getHandle], [Tox.prototype.getLibrary] *)
Definition getHandle (this : Tox) : Ptr := _handle this.
Definition getLibrary (this : Tox) : Library Eng := _library this.

(** *** Bootstrap *)

(** buffertools' [fromHex] on the content of a buffer: two hex digits
    give one byte. *)
Definition fromHex (content : list byte) : Completion Value :=
  match hex_decode content with
  | Some (b :: key) => Normal (VBuffer (b :: key))
  | _ => fromHex_irregular P content
  end.

(** [Tox.prototype._getToxBootstrapError]: [None] for [undefined]. *)
Definition _getToxBootstrapError (val : Z) : option Error :=
  if negb (val =? TOX_ERR_BOOTSTRAP_OK (consts P))
  then Some (MkError ("tox_bootstrap: " ++ string_of_Z val)%string)
  else None.

Definition returned_false : Error :=
  MkError "tox_bootstrap returned false but no error set at eptr".

(** The native call of both variants. *)
Definition native_bootstrap (this : Tox) (address : list byte)
    (port publicKey : Value) : M World (bool * Z) :=
  fun w =>
    let '(e, (res, st)) :=
      tox_bootstrap (getLibrary this) (engine w) (getHandle this)
        address port publicKey in
    (Normal (res, st),
     crossed e (Call_tox_bootstrap (getHandle this) address port publicKey
                  res st) w).

(** The function that [Tox.prototype.bootstrap] hands to the
    asynchronous call; [err] is [None] for a falsy value. *)
Definition bootstrap_done (eptr : Z)
    (callback : option (option Error -> M World unit))
    (err : option Error) (res : bool) : M World unit :=
  let terr := _getToxBootstrapError eptr in
  let err := match err, terr with
             | None, Some t => Some t
             | _, _ => err
             end in
  let err := match err with
             | None => if negb res then Some returned_false else None
             | Some _ => err
             end in
  match callback with
  | Some cb => cb err
  | None => ret tt
  end.

(** [Tox.prototype.bootstrap]: the native call completes with no error
    of the foreign-function layer, and then the callback runs. *)
Definition bootstrap (address : string) (port publicKey : Value)
    (callback : option (option Error -> M World unit)) (this : Tox)
  : M World unit :=
  let address := Buffer.utf8 (address ++ String zero EmptyString) in
  publicKey <- lift match publicKey with
                    | VString s => fromHex (Buffer.utf8 s)
                    | _ => Normal publicKey
                    end ;;
  res_eptr <- native_bootstrap this address port publicKey ;;
  bootstrap_done (snd res_eptr) callback None (fst res_eptr).

(** [Tox.prototype.bootstrapSync] *)
Definition bootstrapSync (address : string) (port publicKey : Value)
    (this : Tox) : M World unit :=
  let address := Buffer.utf8 (address ++ String zero EmptyString) in
  publicKey <- lift match publicKey with
                    | VString s => fromHex (Buffer.utf8 s)
                    | _ => Normal publicKey
                    end ;;
  success_eptr <- native_bootstrap this address port publicKey ;;
  match _getToxBootstrapError (snd success_eptr) with
  | Some terr => throw terr
  | None =>
      if negb (fst success_eptr) then throw returned_false else ret tt
  end.

(** *** Iteration and teardown *)

(** [Tox.prototype.iterationIntervalSync] *)
Definition iterationIntervalSync (this : Tox) : M World Z :=
  fun w =>
    let '(e, ms) :=
      tox_iteration_interval (getLibrary this) (engine w) (getHandle this) in
    (Normal ms, crossed e (Call_tox_iteration_interval (getHandle this) ms) w).

(** [Tox.prototype.iterateSync] *)
Definition iterateSync (this : Tox) : M World unit :=
  fun w =>
    (Normal tt,
     crossed (tox_iterate (getLibrary this) (engine w) (getHandle this))
       (Call_tox_iterate (getHandle this)) w).

(** [Tox.prototype.killSync] *)
Definition killSync (this : Tox) : M World unit :=
  fun w =>
    (Normal tt,
     crossed (tox_kill (getLibrary this) (engine w) (getHandle this))
       (Call_tox_kill (getHandle this)) w).

(** [Tox.prototype.kill], called with a callback: the native call
    completes and the callback gets no error. *)
Definition kill (callback : option Error -> M World unit) (this : Tox)
  : M World unit :=
  killSync this ;;
  callback None.

(** *** The iterate loop *)

(** [Tox.prototype.isStarted] *)
Definition isStarted (this : Tox) : bool :=
  match _interval this with
  | Some _ => true
  | None => false
  end.

Definition ToNumber (v : Value) : Num :=
  match v with
  | VUndefined => NaN
  | VNull => Fin 0
  | VBool b => Fin (if b then 1 else 0)
  | VNumber n => n
  | VString s => StringToNumber P s
  | VBuffer _ | VObject _ => ObjectToNumber P v
  end.

(** [isNaN(v)] *)
Definition isNaN (v : Value) : bool :=
  match ToNumber v with
  | NaN => true
  | _ => false
  end.

(** [v <= 0] *)
Definition le_zero (v : Value) : bool :=
  match ToNumber v with
  | NaN | PosInf => false
  | NegInf => true
  | Fin q => Qle_bool q 0
  end.

(** [Tox.prototype.start]: the object after the call. *)
Definition start (wait : Value) (this : Tox) : M World Tox :=
  if negb (isStarted this) then
    let wait := if isNaN wait || le_zero wait
                then VNumber (Fin 40) else wait in
    timer <- setInterval (getLibrary this) (getHandle this) wait ;;
    ret (set_interval (Some timer) this)
  else ret this.

(** [Tox.prototype.stop]: the object after the call. *)
Definition stop (this : Tox) : M World Tox :=
  match _interval this with
  | Some timer =>
      clearInterval timer ;;
      ret (set_interval None this)
  | None => ret this
  end.

(** One period of a timer: the bound [iterateSync]. *)
Definition fire (t : Timer) : M World unit :=
  iterateSync {| _library := timer_library t; _handle := timer_handle t;
                 _interval := Some (timer_id t) |}.

End Binding.

Arguments engine {Eng}.
Arguments calls {Eng}.
Arguments timers {Eng}.
Arguments next_timer {Eng}.
Arguments timer_id {Eng}.
Arguments timer_library {Eng}.
Arguments timer_handle {Eng}.
Arguments timer_wait {Eng}.
Arguments _library {Eng}.
Arguments _handle {Eng}.
Arguments _interval {Eng}.
Arguments crossed {Eng}.
Arguments setInterval {Eng}.
Arguments clearInterval {Eng}.
Arguments set_interval {Eng}.
Arguments createLibrary {Eng}.
Arguments _initNew {Eng}.
Arguments Tox_new {Eng}.
Arguments getHandle {Eng}.
Arguments getLibrary {Eng}.
Arguments native_bootstrap {Eng}.
Arguments bootstrap_done {Eng}.
Arguments bootstrap {Eng}.
Arguments bootstrapSync {Eng}.
Arguments iterationIntervalSync {Eng}.
Arguments iterateSync {Eng}.
Arguments killSync {Eng}.
Arguments kill {Eng}.
Arguments isStarted {Eng}.
Arguments start {Eng}.
Arguments stop {Eng}.
Arguments fire {Eng}.

(** ** Notions used to state the properties *)

(** The value that [_setProxyToToxOptions] tests with [_.isObject]: the
    option [proxy], parsed when it is a string. *)
Definition resolved_proxy (P : Platform) (opts : Value) : Completion Value :=
  match get opts "proxy" with
  | Normal (VString s) => parseProxy P s
  | r => r
  end.

(** The [udp] setting in force: [true] unless the option is given. *)
Definition udp_in_force (udp : Value) : bool :=
  if is_defined udp then ToBoolean udp else true.

Definition hex_digit (n : Z) : ascii :=
  ascii_of_nat (Z.to_nat (if n <? 10 then 48 + n else 87 + n)).

(** The lower-case hex string of a key. *)
Fixpoint to_hex (key : list byte) : string :=
  match key with
  | [] => EmptyString
  | b :: rest =>
      String (hex_digit (u8 b / 16)) (String (hex_digit (u8 b mod 16)) (to_hex rest))
  end.

Fixpoint string_repeat (c : ascii) (n : nat) : string :=
  match n with
  | O => EmptyString
  | S m => String c (string_repeat c m)
  end.

(** What a run of a computation may do to its state: [touches c R] when
    every run of [c], normal or not, takes a state to one in relation
    [R] with it. *)
Definition touches {S A} (c : M S A) (R : S -> S -> Prop) : Prop :=
  forall s r s', c s = (r, s') -> R s s'.

(** The fields that the proxy settings do not reach. *)
Definition same_frame (o o' : ToxOptions) : Prop :=
  ipv6enabled o' = ipv6enabled o /\ udp_disabled o' = udp_disabled o /\
  start_port o' = start_port o /\ end_port o' = end_port o.

Definition keeps_address (o o' : ToxOptions) : Prop :=
  same_frame o o' /\ proxy_address o' = proxy_address o.

(** The address is as it was, or the string [address] of [proxy] was
    written over its start with room for all bytes but the last. *)
Definition may_write (proxy : Value) (o o' : ToxOptions) : Prop :=
  same_frame o o' /\
  (proxy_address o' = proxy_address o \/
   exists a,
     get proxy "address" = Normal (VString a) /\
     proxy_address o' =
       Buffer.write (proxy_address o) a (List.length (proxy_address o) - 1)).

(** ** Sample platforms and engines, on which the model is run *)

(** Node with the native header's constants, a proxy parser that
    recognises nothing, and allocated memory full of ones. *)
Definition node_platform : Platform :=
  {| consts := toxcore_consts;
     global := node_global;
     parseProxy := fun _ => Normal VUndefined;
     size_t := fun z => z;
     uninit := fun _ => xff;
     store_irregular := fun _ => Throw (TypeError "value is out of bounds");
     StringToNumber := fun _ => NaN;
     ObjectToNumber := fun _ => NaN;
     fromHex_irregular := fun _ => Throw (MkError "This is not hexadecimal.") |}.

(** A global scope in which some other module has bound the four names. *)
Definition patched_global (x : string) : option Z :=
  if String.eqb x "TOX_PROXY_NONE" then Some 0
  else if String.eqb x "TOX_PROXY_TYPE_NONE" then Some 0
  else if String.eqb x "TOX_PROXY_TYPE_HTTP" then Some 1
  else if String.eqb x "TOX_PROXY_TYPE_SOCKS5" then Some 2
  else None.

Definition patched_platform : Platform :=
  {| consts := toxcore_consts;
     global := patched_global;
     parseProxy := fun _ => Normal VUndefined;
     size_t := fun z => z;
     uninit := fun _ => xff;
     store_irregular := fun _ => Throw (TypeError "value is out of bounds");
     StringToNumber := fun _ => NaN;
     ObjectToNumber := fun _ => NaN;
     fromHex_irregular := fun _ => Throw (MkError "This is not hexadecimal.") |}.

(** An engine whose state counts the calls it took, and which answers
    creation with [new_status] and bootstrap with [boot]. *)
Definition scripted (new_status : Z) (boot : bool * Z) : Library nat :=
  {| tox_bootstrap := fun e _ _ _ _ => (S e, boot);
     tox_iteration_interval := fun e _ => (S e, 50);
     tox_iterate := fun e _ => S e;
     tox_kill := fun e _ => S e;
     tox_new := fun e _ _ => (S e, (4096, new_status));
     tox_get_savedata := fun e _ => (S e, [x01; x02; x03]);
     tox_get_savedata_size := fun e _ => (S e, 3%nat) |}.

Definition world0 : World nat :=
  {| engine := O; calls := []; timers := []; next_timer := O |}.

Definition tox0 (lib : Library nat) : Tox nat :=
  {| _library := lib; _handle := 4096; _interval := None |}.

Definition ftp_proxy : Value :=
  VObject [("proxy",
            VObject [("type", VString "ftp"); ("address", VString "x");
                     ("port", VNumber (Fin 1))])].

Definition long_proxy : Value :=
  VObject [("proxy",
            VObject [("type", VString "SOCKS5");
                     ("address", VString (string_repeat "a" 300));
                     ("port", VNumber (Fin 9050))])].

(** The struct that the builder leaves for [long_proxy] when the global
    scope binds the four names. *)
Definition long_proxy_options : ToxOptions :=
  snd (_createToxOptions patched_platform long_proxy).

(** ** Further notions *)

(** The bytes of a buffer up to its first zero byte: the string that the
    engine reads from a [char] array. *)
Fixpoint c_string (buf : list byte) : list byte :=
  match buf with
  | [] => []
  | b :: rest => if Byte.eqb b x00 then [] else b :: c_string rest
  end.

(** The global scope binds the four names that [_setProxyToToxOptions]
    reads without declaring: [TOX_PROXY_NONE] and [TOX_PROXY_TYPE_NONE]
    to [none], the other two to [http] and [socks5], all of them values
    of a [uint8] field. *)
Definition binds_proxy_names (P : Platform) (none http socks5 : Z) : Prop :=
  global P "TOX_PROXY_NONE" = Some none /\
  global P "TOX_PROXY_TYPE_NONE" = Some none /\
  global P "TOX_PROXY_TYPE_HTTP" = Some http /\
  global P "TOX_PROXY_TYPE_SOCKS5" = Some socks5 /\
  0 <= none < 256 /\ 0 <= http < 256 /\ 0 <= socks5 < 256.

(** The kind that the two tests of [proxy.type] select: [http] for a
    spelling of http, [socks5] for a spelling of socks or socks5, and no
    kind for any other string. *)
Definition selected_kind (http socks5 : Z) (t : string) : option Z :=
  if test_http t then Some http
  else if test_socks5 t then Some socks5
  else None.

(** The flag that the builder stores for the option [ipv6]. *)
Definition ipv6_in_force (ipv6 : Value) : bool :=
  if is_defined ipv6 then ToBoolean ipv6 else false.

(** Every timer of the world was made before the next one will be. *)
Definition fresh_ids {Eng} (w : World Eng) : Prop :=
  Forall (fun t => (timer_id t < next_timer w)%nat) (timers w).

(** [n] periods of a timer, one after the other. *)
Fixpoint periods {Eng} (n : nat) (t : Timer Eng) : M (World Eng) unit :=
  match n with
  | O => ret tt
  | S m => fire t ;; periods m t
  end.

(** The options [{ipv6: true, proxy: {type: 'socks5', address: '10.0.0.1',
    port: 9050}}]. *)
Definition socks_proxy : Value :=
  VObject [("ipv6", VBool true);
           ("proxy",
            VObject [("type", VString "socks5");
                     ("address", VString "10.0.0.1");
                     ("port", VNumber (Fin (inject_Z 9050)))])].


(** ** The methods of the object *)

(** The names to which the file assigns a function on [Tox.prototype],
    in the order of the file. *)
Definition Tox_prototype : list string :=
  ["_createToxOptions"; "_setProxyToToxOptions"; "_initNew";
   "_checkToxNewError"; "_getToxBootstrapError"; "getHandle"; "getLibrary";
   "bootstrap"; "bootstrapSync"; "createLibrary"; "isStarted";
   "iterationInterval"; "iterationIntervalSync"; "iterate"; "iterateSync";
   "kill"; "killSync"; "start"; "stop"].

(** The names that every object inherits from [Object.prototype]. *)
Definition Object_prototype : list string :=
  ["constructor"; "hasOwnProperty"; "isPrototypeOf"; "propertyIsEnumerable";
   "toLocaleString"; "toString"; "valueOf"; "__defineGetter__";
   "__defineSetter__"; "__lookupGetter__"; "__lookupSetter__"].

(** The native functions that [createLibrary] binds, in the order of
    the file. *)
Definition bound_functions : list string :=
  ["tox_add_tcp_relay"; "tox_bootstrap"; "tox_iteration_interval";
   "tox_iterate"; "tox_kill"; "tox_new"; "tox_get_savedata";
   "tox_get_savedata_size"; "tox_options_default"; "tox_options_free";
   "tox_options_new"].

Definition is_method (name : string) : bool :=
  existsb (String.eqb name) Tox_prototype.

Definition is_inherited (name : string) : bool :=
  existsb (String.eqb name) Object_prototype.

(** The statement [this[name]();] on an object that [Tox] made: the
    object after the call.  The own properties [_library], [_handle] and
    [_interval] hold no function, so a function is found on
    [Tox.prototype] or on [Object.prototype], and a name that neither
    holds throws at the call.  The methods that the model does not run
    without arguments, and the inherited functions, are left to
    [other]. *)
Definition call_statement {Eng} (P : Platform)
    (other : string -> Tox Eng -> M (World Eng) (Tox Eng))
    (name : string) (this : Tox Eng) : M (World Eng) (Tox Eng) :=
  if String.eqb name "iterateSync" then iterateSync this ;; ret this
  else if String.eqb name "killSync" then killSync this ;; ret this
  else if String.eqb name "iterationIntervalSync" then
    iterationIntervalSync this ;; ret this
  else if String.eqb name "start" then start P VUndefined this
  else if String.eqb name "stop" then stop this
  else if String.eqb name "isStarted" then ret this
  else if String.eqb name "getHandle" then ret this
  else if String.eqb name "getLibrary" then ret this
  else if is_method name || is_inherited name then other name this
  else throw (TypeError (name ++ " is not a function")%string).

(** The calls of the two native functions for the save data. *)
Definition is_savedata_call (c : Call) : bool :=
  match c with
  | Call_tox_get_savedata_size _ _ | Call_tox_get_savedata _ _ => true
  | _ => false
  end.

(** The engine has taken no call for the save data. *)
Definition no_savedata_call {Eng} (w : World Eng) : Prop :=
  Forall (fun c => is_savedata_call c = false) (calls w).

(** ** Properties of buffers *)

Lemma utf8_fit_length (s : string) :
  forall room, (List.length (Buffer.utf8_fit room s) <= room)%nat.
Proof.
  induction s as [|c rest IH]; intros room; simpl.
  - lia.
  - destruct (Nat.leb_spec (List.length (Buffer.utf8_char c)) room) as [Hle|Hgt].
    + rewrite length_app. specialize (IH (room - List.length (Buffer.utf8_char c))%nat). lia.
    + simpl. lia.
Qed.

(** What is written is the start of the encoding of the string. *)
Lemma utf8_fit_prefix (s : string) :
  forall room, exists rest, Buffer.utf8 s = Buffer.utf8_fit room s ++ rest.
Proof.
  induction s as [|c tl IH]; intros room; simpl.
  - exists []. reflexivity.
  - destruct (List.length (Buffer.utf8_char c) <=? room)%nat.
    + destruct (IH (room - List.length (Buffer.utf8_char c))%nat) as [rest Hrest].
      exists rest. rewrite Hrest at 1. now rewrite app_assoc.
    + exists (Buffer.utf8_char c ++ Buffer.utf8 tl). reflexivity.
Qed.

Lemma skipn_repeat {A} (x : A) (n k : nat) :
  skipn k (repeat x n) = repeat x (n - k).
Proof.
  revert k; induction n as [|n IH]; intros [|k]; simpl; auto.
Qed.

Lemma nth_error_repeat {A} (x : A) (n i : nat) :
  (i < n)%nat -> nth_error (repeat x n) i = Some x.
Proof.
  revert i; induction n as [|n IH]; intros [|i] Hi; simpl; try lia; auto.
  apply IH. lia.
Qed.

(** A write of at most [len] bytes into a cleared buffer leaves zeros
    from the end of what was written. *)
Lemma write_cleared (n len : nat) (s : string) :
  Buffer.write (repeat x00 n) s len =
  Buffer.utf8_fit (Nat.min len n) s
    ++ repeat x00 (n - List.length (Buffer.utf8_fit (Nat.min len n) s)).
Proof.
  unfold Buffer.write. rewrite repeat_length, skipn_repeat. reflexivity.
Qed.

Lemma write_length (buf : list byte) (s : string) (len : nat) :
  List.length (Buffer.write buf s len) = List.length buf.
Proof.
  unfold Buffer.write.
  pose proof (utf8_fit_length s (Nat.min len (List.length buf))) as H.
  rewrite length_app, length_skipn. lia.
Qed.

Lemma new_ToxOptions_address_length (mem : nat -> byte) :
  List.length (proxy_address (new_ToxOptions mem)) = 256%nat.
Proof. reflexivity. Qed.

Lemma store_uint_in_range (bits v : Z) :
  0 <= v < 2 ^ bits -> store_uint bits v = Normal v.
Proof.
  intros [Hlo Hhi]. unfold store_uint.
  apply Z.leb_le in Hlo. apply Z.ltb_lt in Hhi. now rewrite Hlo, Hhi.
Qed.

(** ** Rules for [touches] *)

Section Touches.

Context {S : Type}.
Implicit Types R : S -> S -> Prop.

Lemma touches_ret {A} (a : A) R :
  (forall s, R s s) -> touches (ret a) R.
Proof. intros Hrefl s r s' H. inversion H; subst. apply Hrefl. Qed.

Lemma touches_throw {A} (e : Error) R :
  (forall s, R s s) -> touches (@throw S A e) R.
Proof. intros Hrefl s r s' H. inversion H; subst. apply Hrefl. Qed.

Lemma touches_lift {A} (c : Completion A) R :
  (forall s, R s s) -> touches (lift c) R.
Proof. intros Hrefl s r s' H. inversion H; subst. apply Hrefl. Qed.

Lemma touches_read R :
  (forall s, R s s) -> touches read R.
Proof. intros Hrefl s r s' H. inversion H; subst. apply Hrefl. Qed.

Lemma touches_modify (f : S -> S) R :
  (forall s, R s (f s)) -> touches (modify f) R.
Proof. intros Hf s r s' H. inversion H; subst. apply Hf. Qed.

Lemma touches_bind {A B} (c : M S A) (k : A -> M S B) R1 R2 R :
  touches c R1 ->
  (forall a, touches (k a) R2) ->
  (forall s s1, R1 s s1 -> R s s1) ->
  (forall s s1 s2, R1 s s1 -> R2 s1 s2 -> R s s2) ->
  touches (bind c k) R.
Proof.
  intros Hc Hk Hsub Hcomp s r s' H. unfold bind in H.
  destruct (c s) as [[a|e] s1] eqn:Hcs.
  - eapply Hcomp; [eapply Hc | eapply Hk]; eauto.
  - inversion H; subst. eapply Hsub, Hc; eauto.
Qed.

(** A step that leaves the state alone, with its result known to the
    rest. *)
Lemma touches_bind_lift {A B} (c : Completion A) (k : A -> M S B) R :
  (forall a, c = Normal a -> touches (k a) R) ->
  (forall s, R s s) ->
  touches (bind (lift c) k) R.
Proof.
  intros Hk Hrefl s r s' H. unfold bind, lift in H.
  destruct c as [a|e].
  - eapply Hk; eauto.
  - inversion H; subst. apply Hrefl.
Qed.

Lemma touches_bind_ret {A B} (a : A) (k : A -> M S B) R :
  touches (k a) R -> touches (bind (ret a) k) R.
Proof. intros Hk s r s' H. eapply Hk. exact H. Qed.

Lemma touches_bind_read {B} (k : S -> M S B) R :
  (forall s0, touches (k s0) R) -> touches (bind read k) R.
Proof. intros Hk s r s' H. unfold bind, read in H. eapply Hk; eauto. Qed.

End Touches.

Lemma same_frame_refl o : same_frame o o.
Proof. repeat split. Qed.

Lemma keeps_address_refl o : keeps_address o o.
Proof. repeat split. Qed.

Lemma may_write_refl proxy o : may_write proxy o o.
Proof. split; [apply same_frame_refl | now left]. Qed.

Lemma keeps_address_trans o1 o2 o3 :
  keeps_address o1 o2 -> keeps_address o2 o3 -> keeps_address o1 o3.
Proof.
  intros [(A1 & B1 & C1 & D1) E1] [(A2 & B2 & C2 & D2) E2].
  repeat split; congruence.
Qed.

Lemma keeps_then_may_write proxy o1 o2 o3 :
  keeps_address o1 o2 -> may_write proxy o2 o3 -> may_write proxy o1 o3.
Proof.
  intros [(A1 & B1 & C1 & D1) E1] [(A2 & B2 & C2 & D2) W].
  split; [repeat split; congruence|].
  rewrite <- E1. exact W.
Qed.

Lemma may_write_then_keeps proxy o1 o2 o3 :
  may_write proxy o1 o2 -> keeps_address o2 o3 -> may_write proxy o1 o3.
Proof.
  intros [(A1 & B1 & C1 & D1) W] [(A2 & B2 & C2 & D2) E2].
  split; [repeat split; congruence|].
  rewrite E2. exact W.
Qed.

Lemma keeps_is_may_write proxy o1 o2 :
  keeps_address o1 o2 -> may_write proxy o1 o2.
Proof. intros [F E]. split; [exact F | now left]. Qed.

Create HintDb tox.
#[local] Hint Resolve same_frame_refl keeps_address_refl may_write_refl
  keeps_address_trans keeps_then_may_write may_write_then_keeps
  keeps_is_may_write : tox.

(** ** The proxy settings *)

Section ProxySettings.

Variable P : Platform.

Lemma assign_proxy_type_keeps v :
  touches (assign_proxy_type v) keeps_address.
Proof.
  unfold assign_proxy_type.
  apply touches_bind_lift; auto with tox.
  intros b _. apply touches_modify. intros s. repeat split.
Qed.

Lemma free_then {A} (x : string) (k : Z -> M ToxOptions A) R :
  (forall v, touches (k v) R) ->
  (forall s, R s s) ->
  touches (bind (free_identifier P x) k) R.
Proof.
  intros Hk Hrefl. unfold free_identifier.
  destruct (global P x) as [v|].
  - intros s r s' H. eapply Hk. exact H.
  - intros s r s' H. inversion H; subst. apply Hrefl.
Qed.

Lemma assign_then {A} v (k : unit -> M ToxOptions A) proxy :
  (forall u, touches (k u) (may_write proxy)) ->
  touches (bind (assign_proxy_type v) k) (may_write proxy).
Proof.
  intros Hk.
  eapply touches_bind; eauto using assign_proxy_type_keeps with tox.
Qed.

Lemma setProxy_touches opts :
  touches (_setProxyToToxOptions P opts)
    (fun o o' =>
       same_frame o o' /\
       (proxy_address o' = proxy_address o \/
        exists proxy, resolved_proxy P opts = Normal proxy /\
                      may_write proxy o o')).
Proof.
  unfold _setProxyToToxOptions, resolved_proxy.
  match goal with
  | |- touches (bind _ (fun p0 => bind _ ?k)) _ => set (block := k)
  end.
  assert (Hblock : forall proxy, touches (block proxy) (may_write proxy)).
  { intros proxy. subst block. cbv beta.
    destruct (isObject proxy); [|apply touches_ret; auto with tox].
    apply free_then; auto with tox. intros none.
    apply assign_then. intros _.
    apply touches_bind_lift; auto with tox. intros type _.
    eapply touches_bind with (R1 := keeps_address) (R2 := may_write proxy);
      eauto with tox.
    { destruct type; try (apply touches_ret; auto with tox).
      destruct (test_http s).
      - apply free_then; auto with tox. intros v. apply assign_proxy_type_keeps.
      - destruct (test_socks5 s); [|apply touches_ret; auto with tox].
        apply free_then; auto with tox. intros v. apply assign_proxy_type_keeps. }
    intros _. apply touches_bind_read. intros options.
    apply free_then; auto with tox. intros none'.
    destruct (negb (proxy_type options =? none')); [|apply touches_ret; auto with tox].
    apply touches_bind_lift; auto with tox. intros address Haddr.
    eapply touches_bind with (R1 := may_write proxy) (R2 := keeps_address);
      eauto with tox.
    { destruct address; try (apply touches_ret; auto with tox).
      apply touches_modify. intros o. split; [repeat split|].
      right. exists s. split; [exact Haddr | reflexivity]. }
    intros _. apply touches_bind_lift; auto with tox. intros port _.
    destruct port; try (apply touches_ret; auto with tox).
    apply touches_bind_lift; auto with tox. intros p _.
    apply touches_modify. intros o. repeat split. }
  apply touches_bind_lift; [|intros; split; auto with tox].
  intros proxy0 Hget. rewrite Hget.
  assert (Hwrap : forall proxy,
    match proxy0 with VString s => parseProxy P s | _ => Normal proxy0 end
      = Normal proxy ->
    touches (block proxy)
      (fun o o' => same_frame o o' /\
         (proxy_address o' = proxy_address o \/
          exists proxy1,
            match proxy0 with VString s => parseProxy P s | _ => Normal proxy0 end
              = Normal proxy1 /\ may_write proxy1 o o'))).
  { intros proxy Hp s r s' H. pose proof (Hblock proxy s r s' H) as Hw.
    split; [apply Hw|]. right. exists proxy. split; assumption. }
  destruct proxy0;
    try (apply touches_bind_ret; apply Hwrap; reflexivity).
  apply touches_bind_lift; [|intros; split; auto with tox].
  intros proxy Hp. apply Hwrap. exact Hp.
Qed.
End ProxySettings.

Section BuilderRuns.
Variable P : Platform.

Lemma createToxOptions_normal opts o :
  fst (_createToxOptions P opts) = Normal o ->
  exists ipv6 udp,
    get opts "ipv6" = Normal ipv6 /\
    get opts "udp" = Normal udp /\
    snd (_createToxOptions P opts) = o /\
    ipv6enabled o =
      (if (if is_defined ipv6 then ToBoolean ipv6 else false) then 1 else 0) /\
    udp_disabled o = (if udp_in_force udp then 0 else 1) /\
    start_port o = start_port (new_ToxOptions (uninit P)) /\
    end_port o = end_port (new_ToxOptions (uninit P)) /\
    (proxy_address o = repeat x00 256 \/
     exists proxy a,
       resolved_proxy P opts = Normal proxy /\
       get proxy "address" = Normal (VString a) /\
       proxy_address o = Buffer.write (repeat x00 256) a 255).
Proof.
  destruct (_createToxOptions P opts) as [r s] eqn:Hrun.
  cbn [fst snd]. intros ->.
  unfold _createToxOptions, _createToxOptions_body, assign_proxy_type in Hrun.
  unfold bind at 1, lift at 1 in Hrun.
  destruct (get opts "ipv6") as [ipv6|e]; [|discriminate].
  unfold bind at 1, lift at 1 in Hrun.
  destruct (get opts "udp") as [udp|e]; [|discriminate].
  unfold bind at 1, modify at 1 in Hrun.
  unfold bind at 1 in Hrun. unfold bind at 1, lift at 1 in Hrun.
  destruct (store_uint 8 (TOX_PROXY_TYPE_NONE (consts P))) as [b|e];
    [|discriminate].
  unfold modify at 1 in Hrun.
  unfold bind at 1, lift at 1 in Hrun.
  change (store_uint 16 0) with (Normal (A:=Z) 0) in Hrun.
  cbv iota beta in Hrun.
  unfold bind at 1, modify at 1 in Hrun.
  unfold bind at 1, modify at 1 in Hrun.
  unfold bind at 1, modify at 1 in Hrun.
  unfold bind at 1 in Hrun.
  match type of Hrun with
  | context [_setProxyToToxOptions P opts ?s] => set (s0 := s) in Hrun
  end.
  destruct (_setProxyToToxOptions P opts s0) as [[[]|e] s1] eqn:Hset;
    [|discriminate].
  unfold read in Hrun. inversion Hrun; subst o s; clear Hrun.
  apply setProxy_touches in Hset.
  destruct Hset as [(Hi & Hu & Hs & He) Haddr].
  exists ipv6, udp. repeat split; try reflexivity.
  - rewrite Hi. reflexivity.
  - rewrite Hu. reflexivity.
  - rewrite Hs. reflexivity.
  - rewrite He. reflexivity.
  - destruct Haddr as [Hsame | (proxy & Hres & _ & [Hsame | (a & Ha & Hw)])].
    + left. rewrite Hsame. reflexivity.
    + left. rewrite Hsame. reflexivity.
    + right. exists proxy, a. repeat split; auto.
Qed.
End BuilderRuns.

(** ** The configuration the builder leaves *)

(** In the global scope of Node, a proxy that is an object stops the
    builder at the first statement of the guarded block: the name
    [TOX_PROXY_NONE] is bound nowhere. *)
Lemma object_proxy_throws (P : Platform) (opts proxy : Value) (o : ToxOptions) :
  global P "TOX_PROXY_NONE" = None ->
  resolved_proxy P opts = Normal proxy ->
  isObject proxy = true ->
  _setProxyToToxOptions P opts o = (Throw (ReferenceError "TOX_PROXY_NONE"), o).
Proof.
  intros Hglobal Hres Hobj.
  unfold _setProxyToToxOptions, resolved_proxy in *.
  unfold bind at 1, lift at 1.
  destruct (get opts "proxy") as [p|e]; [|discriminate].
  assert (Hstep :
    (match p with VString s => lift (parseProxy P s) | _ => ret p end) o
      = (Normal proxy, o)).
  { destruct p; unfold lift, ret; rewrite <- Hres; reflexivity. }
  unfold bind at 1. rewrite Hstep, Hobj.
  unfold bind at 1, free_identifier at 1. rewrite Hglobal. reflexivity.
Qed.

(** A proxy that is no object leaves the struct as it was. *)
Lemma other_proxy_ignored (P : Platform) (opts proxy : Value) (o : ToxOptions) :
  resolved_proxy P opts = Normal proxy ->
  isObject proxy = false ->
  _setProxyToToxOptions P opts o = (Normal tt, o).
Proof.
  intros Hres Hobj.
  unfold _setProxyToToxOptions, resolved_proxy in *.
  unfold bind at 1, lift at 1.
  destruct (get opts "proxy") as [p|e]; [|discriminate].
  assert (Hstep :
    (match p with VString s => lift (parseProxy P s) | _ => ret p end) o
      = (Normal proxy, o)).
  { destruct p; unfold lift, ret; rewrite <- Hres; reflexivity. }
  unfold bind at 1. rewrite Hstep, Hobj. reflexivity.
Qed.

(** C2, at the failing input: with the proxy
    [{type: 'ftp', address: 'x', port: 1}], whose type is none of http,
    socks and socks5, the builder yields no configuration: it throws a
    [ReferenceError] for the undeclared name [TOX_PROXY_NONE]. *)
Theorem unrecognised_proxy_type_throws :
  fst (_createToxOptions node_platform ftp_proxy)
  = Throw (ReferenceError "TOX_PROXY_NONE").
Proof. vm_compute. reflexivity. Qed.

(** The flag for UDP: every struct the builder returns has
    [udp_disabled = 0] when the option [udp] is omitted or truthy, and
    [udp_disabled = 1] when it is given and falsy, whatever the proxy
    step did. *)
Theorem udp_flag_follows_option (P : Platform) (opts udp : Value)
    (o : ToxOptions) :
  get opts "udp" = Normal udp ->
  fst (_createToxOptions P opts) = Normal o ->
  udp_disabled o = if udp_in_force udp then 0 else 1.
Proof.
  intros Hget Hrun.
  destruct (createToxOptions_normal P opts o Hrun)
    as (ipv6' & udp' & _ & Hudp' & _ & _ & Hdis & _).
  rewrite Hget in Hudp'. inversion Hudp'; subst. exact Hdis.
Qed.

Lemma udp_flag_follows_option_witness :
  udp_disabled
    (snd (_createToxOptions node_platform
            (VObject [("udp", VNumber (Fin 0)); ("proxy", VNumber (Fin 8080))])))
  = 1.
Proof.
  apply (udp_flag_follows_option node_platform
           (VObject [("udp", VNumber (Fin 0)); ("proxy", VNumber (Fin 8080))])
           (VNumber (Fin 0)));
    vm_compute; reflexivity.
Defined.

(** C4, at the failing input: with nothing in the options and allocated
    memory full of ones, the builder clears or sets every other field
    and returns the struct with the port range 65535 to 65535: it never
    assigns [start_port] or [end_port]. *)
Theorem port_range_left_as_allocated :
  exists o,
    fst (_createToxOptions node_platform (VObject [])) = Normal o /\
    ipv6enabled o = 0 /\ udp_disabled o = 0 /\ proxy_type o = 0 /\
    proxy_address o = repeat x00 256 /\ proxy_port o = 0 /\
    start_port o = 65535 /\ end_port o = 65535.
Proof. eexists. vm_compute. repeat split. Qed.

(** C5: in every struct the builder returns, the proxy address has its
    256 bytes, the last of them zero; what was written is at most 255
    bytes, a prefix of the encoding of the address string that stops at a
    whole character, and zeros follow it. *)
Theorem proxy_address_never_overflows (P : Platform) (opts : Value)
    (o : ToxOptions) :
  fst (_createToxOptions P opts) = Normal o ->
  List.length (proxy_address o) = 256%nat /\
  nth_error (proxy_address o) 255 = Some x00 /\
  exists written,
    (List.length written <= 255)%nat /\
    proxy_address o = written ++ repeat x00 (256 - List.length written) /\
    (written = [] \/
     exists proxy a rest,
       resolved_proxy P opts = Normal proxy /\
       get proxy "address" = Normal (VString a) /\
       written = Buffer.utf8_fit 255 a /\
       Buffer.utf8 a = written ++ rest).
Proof.
  intros Hrun.
  destruct (createToxOptions_normal P opts o Hrun)
    as (ipv6 & udp & _ & _ & _ & _ & _ & _ & _ & Haddr).
  assert (Hshape : exists written,
    (List.length written <= 255)%nat /\
    proxy_address o = written ++ repeat x00 (256 - List.length written) /\
    (written = [] \/
     exists proxy a rest,
       resolved_proxy P opts = Normal proxy /\
       get proxy "address" = Normal (VString a) /\
       written = Buffer.utf8_fit 255 a /\
       Buffer.utf8 a = written ++ rest)).
  { destruct Haddr as [Hzero | (proxy & a & Hres & Ha & Hw)].
    - exists []. split; [simpl; lia|]. split; [exact Hzero | now left].
    - exists (Buffer.utf8_fit 255 a).
      split; [apply utf8_fit_length|]. split.
      + rewrite Hw, write_cleared. reflexivity.
      + right. destruct (utf8_fit_prefix a 255) as [rest Hrest].
        exists proxy, a, rest. repeat split; auto. }
  destruct Hshape as (written & Hlen & Hshape & Hsrc).
  split; [|split].
  - rewrite Hshape, length_app, repeat_length. lia.
  - rewrite Hshape, nth_error_app2 by lia.
    apply nth_error_repeat. lia.
  - exists written. repeat split; assumption.
Qed.

Lemma proxy_address_never_overflows_witness :
  fst (_createToxOptions patched_platform long_proxy) = Normal long_proxy_options /\
  List.length (proxy_address long_proxy_options) = 256%nat /\
  nth_error (proxy_address long_proxy_options) 255 = Some x00 /\
  firstn 255 (proxy_address long_proxy_options) = repeat x61 255.
Proof.
  assert (Hrun : fst (_createToxOptions patched_platform long_proxy)
                 = Normal long_proxy_options) by (vm_compute; reflexivity).
  destruct (proxy_address_never_overflows _ _ _ Hrun) as (Hlen & Hlast & _).
  split; [exact Hrun | split; [exact Hlen | split; [exact Hlast |]]].
  vm_compute. reflexivity.
Defined.

(** ** Creation *)

Section Creation.

Variable Eng : Type.
Variable P : Platform.
Variable ffi_Library : Value -> Completion (Library Eng).

(** [_initNew] makes the one creation call and throws exactly when the
    status it reads is not [TOX_ERR_NEW_OK]. *)
Lemma initNew_spec (lib : Library Eng) (options : option ToxOptions)
    (w : World Eng) (e : Eng) (h : Ptr) (st : Z) :
  tox_new lib (engine w) options (size_t P 0) = (e, (h, st)) ->
  _initNew P lib options w =
    (if st =? TOX_ERR_NEW_OK (consts P) then Normal h
     else Throw (MkError ("tox_new error: " ++ string_of_Z st)%string),
     crossed e (Call_tox_new options (size_t P 0) h st) w).
Proof.
  intros Hnew. unfold _initNew, _checkToxNewError, bind, lift, ret.
  rewrite Hnew. cbn [snd fst]. destruct (st =? _); reflexivity.
Qed.

Lemma given_options_readable (opts : Value) (k : string) :
  exists v,
    get (if negb (ToBoolean opts) then VObject [] else opts) k = Normal v.
Proof.
  destruct opts as [| |b|n|s|bs|props]; simpl; eauto.
  - destruct b; simpl; eauto.
  - destruct n as [| | |q]; simpl; eauto. destruct (Qeq_bool q 0); simpl; eauto.
  - destruct (String.eqb s ""); simpl; eauto.
Qed.

End Creation.

(** C6: once the options are built and the library is bound, the
    constructor makes the creation call, and it throws the error that
    carries the status [st] of that call if and only if [st] is not
    [TOX_ERR_NEW_OK]; when the status is OK it returns the object that
    holds the handle the engine gave, with no loop running. *)
Theorem creation_throws_iff_status_not_ok (Eng : Type) (P : Platform)
    (ffi_Library : Value -> Completion (Library Eng)) (opts : Value)
    (w : World Eng) (o : ToxOptions) (lib : Library Eng)
    (e : Eng) (h : Ptr) (st : Z) :
  let given := if negb (ToBoolean opts) then VObject [] else opts in
  fst (_createToxOptions P given) = Normal o ->
  (exists libpath,
     get given "path" = Normal libpath /\
     createLibrary ffi_Library libpath = Normal lib) ->
  tox_new lib (engine w) (Some o) (size_t P 0) = (e, (h, st)) ->
  Tox_new P ffi_Library opts w =
    (if st =? TOX_ERR_NEW_OK (consts P)
     then Normal {| _library := lib; _handle := h; _interval := None |}
     else Throw (MkError ("tox_new error: " ++ string_of_Z st)%string),
     crossed e (Call_tox_new (Some o) (size_t P 0) h st) w) /\
  (fst (Tox_new P ffi_Library opts w)
     = Throw (MkError ("tox_new error: " ++ string_of_Z st)%string)
   <-> st <> TOX_ERR_NEW_OK (consts P)).
Proof.
  intros given Hbuild (libpath & Hpath & Hlib) Hnew.
  assert (Hrun : Tox_new P ffi_Library opts w =
    (if st =? TOX_ERR_NEW_OK (consts P)
     then Normal {| _library := lib; _handle := h; _interval := None |}
     else Throw (MkError ("tox_new error: " ++ string_of_Z st)%string),
     crossed e (Call_tox_new (Some o) (size_t P 0) h st) w)).
  { unfold Tox_new. fold given.
    unfold bind at 1, lift at 1. rewrite Hpath.
    unfold bind at 1, lift at 1. rewrite Hbuild.
    unfold bind at 1, lift at 1. rewrite Hlib.
    unfold bind at 1. rewrite (initNew_spec Eng P lib (Some o) w e h st Hnew).
    destruct (st =? _); reflexivity. }
  split; [exact Hrun|].
  rewrite Hrun. cbn [fst].
  destruct (Z.eqb_spec st (TOX_ERR_NEW_OK (consts P))) as [Heq|Hne].
  - split; [discriminate | contradiction].
  - split; [intros _; exact Hne | reflexivity].
Qed.

Lemma creation_throws_iff_status_not_ok_witness :
  Tox_new node_platform (fun _ => Normal (scripted 3 (true, 0))) VUndefined world0
  = (Throw (MkError "tox_new error: 3"),
     {| engine := 1%nat;
        calls := [Call_tox_new
                    (Some {| ipv6enabled := 0; udp_disabled := 0;
                             proxy_type := 0; proxy_address := repeat x00 256;
                             proxy_port := 0; start_port := 65535;
                             end_port := 65535 |}) 0 4096 3];
        timers := []; next_timer := O |}).
Proof.
  refine (proj1 (creation_throws_iff_status_not_ok nat node_platform
    (fun _ => Normal (scripted 3 (true, 0))) VUndefined world0
    {| ipv6enabled := 0; udp_disabled := 0; proxy_type := 0;
       proxy_address := repeat x00 256; proxy_port := 0;
       start_port := 65535; end_port := 65535 |}
    (scripted 3 (true, 0)) 1%nat 4096 3 _ _ _)).
  - vm_compute. reflexivity.
  - exists VUndefined. split; reflexivity.
  - reflexivity.
Defined.

(** ** Bootstrap *)

Lemma getToxBootstrapError_ok (P : Platform) :
  _getToxBootstrapError P (TOX_ERR_BOOTSTRAP_OK (consts P)) = None.
Proof. unfold _getToxBootstrapError. now rewrite Z.eqb_refl. Qed.

Lemma getToxBootstrapError_not_ok (P : Platform) (st : Z) :
  st <> TOX_ERR_BOOTSTRAP_OK (consts P) ->
  _getToxBootstrapError P st
  = Some (MkError ("tox_bootstrap: " ++ string_of_Z st)%string).
Proof.
  intros Hne. unfold _getToxBootstrapError.
  destruct (Z.eqb_spec st (TOX_ERR_BOOTSTRAP_OK (consts P))); [contradiction|].
  reflexivity.
Qed.

(** C1: both variants map the engine's answer in the same way.  With
    status OK and result [true] the call succeeds (the callback gets no
    error); with status OK and result [false] it fails with the error
    for an inconsistent result; with any other status it fails with the
    bootstrap error that carries the status, whatever the result. *)
Theorem bootstrap_contract (Eng : Type) (P : Platform) (this : Tox Eng)
    (address : string) (port publicKey key : Value) (w : World Eng)
    (e : Eng) (res : bool) (st : Z)
    (cb : option Error -> M (World Eng) unit) :
  match publicKey with
  | VString s => fromHex P (Buffer.utf8 s)
  | _ => Normal publicKey
  end = Normal key ->
  tox_bootstrap (_library this) (engine w) (_handle this)
    (Buffer.utf8 (address ++ String zero EmptyString)) port key
  = (e, (res, st)) ->
  let w1 :=
    crossed e
      (Call_tox_bootstrap (_handle this)
         (Buffer.utf8 (address ++ String zero EmptyString)) port key res st) w in
  let carrying := MkError ("tox_bootstrap: " ++ string_of_Z st)%string in
  (st = TOX_ERR_BOOTSTRAP_OK (consts P) -> res = true ->
     bootstrapSync P address port publicKey this w = (Normal tt, w1) /\
     bootstrap P address port publicKey (Some cb) this w = cb None w1) /\
  (st = TOX_ERR_BOOTSTRAP_OK (consts P) -> res = false ->
     bootstrapSync P address port publicKey this w = (Throw returned_false, w1) /\
     bootstrap P address port publicKey (Some cb) this w
     = cb (Some returned_false) w1) /\
  (st <> TOX_ERR_BOOTSTRAP_OK (consts P) ->
     bootstrapSync P address port publicKey this w = (Throw carrying, w1) /\
     bootstrap P address port publicKey (Some cb) this w
     = cb (Some carrying) w1).
Proof.
  intros Hkey Hcall w1 carrying.
  assert (Hnative :
    native_bootstrap this (Buffer.utf8 (address ++ String zero EmptyString))
      port key w = (Normal (res, st), w1)).
  { unfold native_bootstrap, getLibrary, getHandle. rewrite Hcall. reflexivity. }
  assert (Hsync : bootstrapSync P address port publicKey this w =
    match _getToxBootstrapError P st with
    | Some terr => (Throw terr, w1)
    | None => if negb res then (Throw returned_false, w1) else (Normal tt, w1)
    end).
  { unfold bootstrapSync. unfold bind at 1, lift at 1. rewrite Hkey.
    unfold bind at 1. rewrite Hnative. cbn [fst snd].
    destruct (_getToxBootstrapError P st); [reflexivity|].
    destruct res; reflexivity. }
  assert (Hasync : bootstrap P address port publicKey (Some cb) this w =
    cb match _getToxBootstrapError P st with
       | Some terr => Some terr
       | None => if negb res then Some returned_false else None
       end w1).
  { unfold bootstrap. unfold bind at 1, lift at 1. rewrite Hkey.
    unfold bind at 1. rewrite Hnative. cbn [fst snd].
    unfold bootstrap_done.
    destruct (_getToxBootstrapError P st); reflexivity. }
  rewrite Hsync, Hasync. repeat split.
  - subst st res. now rewrite getToxBootstrapError_ok.
  - subst st res. now rewrite getToxBootstrapError_ok.
  - subst st res. now rewrite getToxBootstrapError_ok.
  - subst st res. now rewrite getToxBootstrapError_ok.
  - now rewrite getToxBootstrapError_not_ok.
  - now rewrite getToxBootstrapError_not_ok.
Qed.

Lemma bootstrap_contract_witness :
  bootstrapSync node_platform "198.51.100.7" (VNumber (Fin 33445))
    (VString "0aFf") (tox0 (scripted 0 (false, 0))) world0
  = (Throw returned_false,
     {| engine := 1%nat;
        calls := [Call_tox_bootstrap 4096
                    (Buffer.utf8 ("198.51.100.7" ++ String zero EmptyString))
                    (VNumber (Fin 33445)) (VBuffer [x0a; xff]) false 0];
        timers := []; next_timer := O |}) /\
  bootstrapSync node_platform "198.51.100.7" (VNumber (Fin 33445))
    (VString "0aFf") (tox0 (scripted 0 (true, 7))) world0
  = (Throw (MkError "tox_bootstrap: 7"),
     {| engine := 1%nat;
        calls := [Call_tox_bootstrap 4096
                    (Buffer.utf8 ("198.51.100.7" ++ String zero EmptyString))
                    (VNumber (Fin 33445)) (VBuffer [x0a; xff]) true 7];
        timers := []; next_timer := O |}).
Proof.
  split.
  - refine (proj1 (proj1 (proj2 (bootstrap_contract nat node_platform
      (tox0 (scripted 0 (false, 0))) "198.51.100.7" (VNumber (Fin 33445))
      (VString "0aFf") (VBuffer [x0a; xff]) world0 1%nat false 0
      (fun _ => ret tt) eq_refl eq_refl)) eq_refl eq_refl)).
  - refine (proj1 (proj2 (proj2 (bootstrap_contract nat node_platform
      (tox0 (scripted 0 (true, 7))) "198.51.100.7" (VNumber (Fin 33445))
      (VString "0aFf") (VBuffer [x0a; xff]) world0 1%nat true 7
      (fun _ => ret tt) eq_refl eq_refl)) _)).
    discriminate.
Defined.

(** Without a callback the asynchronous variant reports nothing. *)
Lemma bootstrap_without_callback (Eng : Type) (P : Platform) (this : Tox Eng)
    (address : string) (port : Value) (bytes : list byte) (w : World Eng) :
  fst (bootstrap P address port (VBuffer bytes) None this w) = Normal tt.
Proof.
  unfold bootstrap, bind, lift, native_bootstrap, bootstrap_done, ret.
  destruct (tox_bootstrap _ _ _ _ _ _) as [e [res st]]. reflexivity.
Qed.

(** Two hex digits decode to the byte they spell. *)
Lemma hex_decode_pair (b : byte) (rest : list byte) :
  hex_decode (Buffer.utf8_char (hex_digit (u8 b / 16))
              ++ Buffer.utf8_char (hex_digit (u8 b mod 16)) ++ rest)
  = match hex_decode rest with
    | Some r => Some (b :: r)
    | None => None
    end.
Proof. destruct b; reflexivity. Qed.

Lemma hex_decode_to_hex (key : list byte) :
  hex_decode (Buffer.utf8 (to_hex key)) = Some key.
Proof.
  induction key as [|b rest IH].
  - reflexivity.
  - cbn [to_hex Buffer.utf8]. rewrite hex_decode_pair, IH. reflexivity.
Qed.

(** C9: in both variants a public key given as a string of hex digits
    crosses into the engine as the bytes the digits spell (the call is
    the one made for those bytes), a key given as a buffer crosses as it
    is, and the decoding inverts the hex spelling of any key. *)
Theorem public_key_decoded_before_crossing (Eng : Type) (P : Platform)
    (this : Tox Eng) (address : string) (port : Value) (w : World Eng)
    (cb : option (option Error -> M (World Eng) unit)) :
  (forall s b key,
     hex_decode (Buffer.utf8 s) = Some (b :: key) ->
     bootstrapSync P address port (VString s) this w
     = bootstrapSync P address port (VBuffer (b :: key)) this w /\
     bootstrap P address port (VString s) cb this w
     = bootstrap P address port (VBuffer (b :: key)) cb this w) /\
  (forall bytes,
     let addr := Buffer.utf8 (address ++ String zero EmptyString) in
     let r := tox_bootstrap (_library this) (engine w) (_handle this)
                addr port (VBuffer bytes) in
     let w1 := crossed (fst r)
                 (Call_tox_bootstrap (_handle this) addr port (VBuffer bytes)
                    (fst (snd r)) (snd (snd r))) w in
     snd (bootstrapSync P address port (VBuffer bytes) this w) = w1 /\
     bootstrap P address port (VBuffer bytes) cb this w
     = bootstrap_done P (snd (snd r)) cb None (fst (snd r)) w1) /\
  (forall key, hex_decode (Buffer.utf8 (to_hex key)) = Some key).
Proof.
  split; [|split].
  - intros s b key Hhex.
    unfold bootstrapSync, bootstrap, fromHex. rewrite Hhex. split; reflexivity.
  - intros bytes addr r w1. subst w1 r addr.
    unfold bootstrapSync, bootstrap, bind, lift, native_bootstrap,
      getLibrary, getHandle.
    destruct (tox_bootstrap _ _ _ _ _ _) as [e [res st]]. cbn [fst snd].
    split; [|reflexivity].
    destruct (_getToxBootstrapError P st); [reflexivity|].
    destruct res; reflexivity.
  - apply hex_decode_to_hex.
Qed.

(** ** After the teardown *)

(** C3, as amended: the object keeps no mark of the teardown.  After
    [killSync] (or [kill]) the handle is the same, and [iterateSync],
    [iterationIntervalSync] and [bootstrapSync] return as before, each
    through a call into the engine on that handle. *)
Theorem operations_after_kill_cross (Eng : Type) (P : Platform)
    (this : Tox Eng) (w : World Eng) (address : string) (port : Value)
    (bytes : list byte) (cb : option Error -> M (World Eng) unit) :
  let h := _handle this in
  let w1 := snd (killSync this w) in
  fst (killSync this w) = Normal tt /\
  calls w1 = calls w ++ [Call_tox_kill h] /\
  kill cb this w = cb None w1 /\
  (fst (iterateSync this w1) = Normal tt /\
   calls (snd (iterateSync this w1))
   = calls w ++ [Call_tox_kill h; Call_tox_iterate h]) /\
  (exists ms,
     fst (iterationIntervalSync this w1) = Normal ms /\
     calls (snd (iterationIntervalSync this w1))
     = calls w ++ [Call_tox_kill h; Call_tox_iteration_interval h ms]) /\
  (exists res st,
     calls (snd (bootstrapSync P address port (VBuffer bytes) this w1))
     = calls w ++
       [Call_tox_kill h;
        Call_tox_bootstrap h (Buffer.utf8 (address ++ String zero EmptyString))
          port (VBuffer bytes) res st]).
Proof.
  intros h w1. subst h w1.
  unfold kill, killSync, iterateSync, iterationIntervalSync, bootstrapSync,
    native_bootstrap, bind, lift, getHandle, getLibrary, crossed.
  cbn [fst snd calls engine].
  repeat split.
  - now rewrite <- app_assoc.
  - destruct (tox_iteration_interval _ _ _) as [e ms]. exists ms.
    cbn [fst snd calls]. split; [reflexivity | now rewrite <- app_assoc].
  - destruct (tox_bootstrap _ _ _ _ _ _) as [e [res st]]. exists res, st.
    cbn [fst snd].
    destruct (_getToxBootstrapError P st);
      [|destruct res]; cbn [snd calls]; now rewrite <- app_assoc.
Qed.

(** C3, as stated, fails: on the sample engine, [iterateSync] after
    [killSync] returns with no error and the engine takes a second call
    on the dead handle. *)
Lemma iterate_after_kill_crosses :
  (killSync (tox0 (scripted 0 (true, 0))) ;;
   iterateSync (tox0 (scripted 0 (true, 0)))) world0
  = (Normal tt,
     {| engine := 2%nat;
        calls := [Call_tox_kill 4096; Call_tox_iterate 4096];
        timers := []; next_timer := O |}).
Proof. reflexivity. Qed.

(** ** The iterate loop *)

Lemma start_when_running (Eng : Type) (P : Platform) (this : Tox Eng)
    (wait : Value) (w : World Eng) :
  isStarted this = true -> start P wait this w = (Normal this, w).
Proof. intros Hrun. unfold start. rewrite Hrun. reflexivity. Qed.

Lemma stop_when_idle (Eng : Type) (this : Tox Eng) (w : World Eng) :
  isStarted this = false -> stop this w = (Normal this, w).
Proof.
  unfold isStarted, stop. destruct (_interval this); [discriminate|reflexivity].
Qed.

(** What [stop] cancels is gone from the timers. *)
Lemma stop_cancels (Eng : Type) (this : Tox Eng) (w : World Eng) (id : nat) :
  _interval this = Some id ->
  forall t, In t (timers (snd (stop this w))) -> timer_id t <> id.
Proof.
  intros Hid t. unfold stop. rewrite Hid.
  unfold bind, clearInterval, modify, ret. cbn [snd timers].
  rewrite filter_In. intros [_ Hkeep] Heq.
  apply Nat.eqb_eq in Heq. rewrite Heq in Hkeep. discriminate.
Qed.

(** C7: [start] on a running loop changes neither the object nor the
    world, so no second timer is made; after any [start] the object is
    started, and after a [stop] that follows it is not; and [stop] on an
    object that is not started changes nothing. *)
Theorem start_stop_isStarted (Eng : Type) (P : Platform) (this : Tox Eng)
    (wait : Value) (w : World Eng) :
  (isStarted this = true -> start P wait this w = (Normal this, w)) /\
  (exists this1,
     fst (start P wait this w) = Normal this1 /\
     isStarted this1 = true /\
     exists this2,
       fst (stop this1 (snd (start P wait this w))) = Normal this2 /\
       isStarted this2 = false) /\
  (isStarted this = false -> stop this w = (Normal this, w)).
Proof.
  split; [apply start_when_running|]. split; [|apply stop_when_idle].
  unfold start. destruct (isStarted this) eqn:Hrun; cbn [negb].
  - exists this. cbn [fst snd]. repeat split; [exact Hrun|].
    unfold isStarted in Hrun. unfold stop.
    destruct (_interval this) as [id|]; [|discriminate].
    eexists. split; reflexivity.
  - eexists. unfold bind, setInterval, ret. cbn [fst snd].
    repeat split. eexists. split; reflexivity.
Qed.

Lemma isNaN_undefined (P : Platform) : isNaN P VUndefined = true.
Proof. reflexivity. Qed.

(** C10: when [wait] is not a number or is at most 0, every timer that
    [start] sets is on this object's [iterateSync] with the delay 40 in
    place of [wait]; on an object that is not started it sets exactly
    one.  An omitted [wait] is such a value. *)
Theorem start_defaults_to_40 (Eng : Type) (P : Platform) (this : Tox Eng)
    (wait : Value) (w : World Eng) :
  isNaN P wait = true \/ le_zero P wait = true ->
  (exists added,
     timers (snd (start P wait this w)) = timers w ++ added /\
     Forall (fun t => timer_wait t = VNumber (Fin 40) /\
                      timer_library t = _library this /\
                      timer_handle t = _handle this) added /\
     (isStarted this = false -> List.length added = 1%nat)) /\
  (isStarted this = false ->
   start P wait this w =
     (Normal (set_interval (Some (next_timer w)) this),
      {| engine := engine w; calls := calls w;
         timers := timers w ++
                   [{| timer_id := next_timer w;
                       timer_library := _library this;
                       timer_handle := _handle this;
                       timer_wait := VNumber (Fin 40) |}];
         next_timer := S (next_timer w) |})) /\
  isNaN P VUndefined = true.
Proof.
  intros Hbad.
  assert (Hcond : isNaN P wait || le_zero P wait = true)
    by (apply orb_true_iff; exact Hbad).
  split; [|split; [|reflexivity]].
  - unfold start. destruct (isStarted this); cbn [negb].
    + exists []. cbn [snd ret]. rewrite app_nil_r.
      repeat split; [constructor | discriminate].
    + rewrite Hcond. eexists. unfold bind, setInterval, ret.
      cbn [snd timers]. split; [reflexivity|].
      split; [|reflexivity]. repeat constructor.
  - intros Hidle. unfold start. rewrite Hidle, Hcond. reflexivity.
Qed.

Lemma start_defaults_to_40_witness :
  start node_platform VUndefined (tox0 (scripted 0 (true, 0))) world0
  = (Normal {| _library := scripted 0 (true, 0); _handle := 4096;
               _interval := Some O |},
     {| engine := O; calls := [];
        timers := [{| timer_id := O; timer_library := scripted 0 (true, 0);
                      timer_handle := 4096;
                      timer_wait := VNumber (Fin 40) |}];
        next_timer := 1%nat |}) /\
  start node_platform (VNumber (Fin (-5 # 2))) (tox0 (scripted 0 (true, 0))) world0
  = start node_platform (VNumber (Fin 40)) (tox0 (scripted 0 (true, 0))) world0.
Proof.
  split.
  - exact (proj1 (proj2 (start_defaults_to_40 nat node_platform
             (tox0 (scripted 0 (true, 0))) VUndefined world0
             (or_introl eq_refl))) eq_refl).
  - rewrite (proj1 (proj2 (start_defaults_to_40 nat node_platform
             (tox0 (scripted 0 (true, 0))) (VNumber (Fin (-5 # 2))) world0
             (or_intror eq_refl))) eq_refl).
    reflexivity.
Defined.

(** One period of a timer is one call of [tox_iterate] on the handle of
    the object that set it. *)
Lemma fire_iterates_once (Eng : Type) (t : Timer Eng) (w : World Eng) :
  fst (fire t w) = Normal tt /\
  calls (snd (fire t w)) = calls w ++ [Call_tox_iterate (timer_handle t)].
Proof. split; reflexivity. Qed.

(** ** More on the configuration builder *)

(** The builder up to its last step: with the two flags readable and the
    constant for no proxy in the range of its field, the struct reaches
    [_setProxyToToxOptions] cleared and flagged, and the builder returns
    or throws as that step does. *)
Lemma builder_reaches_proxy_step (P : Platform) (opts ipv6 udp : Value) :
  0 <= TOX_PROXY_TYPE_NONE (consts P) < 256 ->
  get opts "ipv6" = Normal ipv6 ->
  get opts "udp" = Normal udp ->
  _createToxOptions P opts =
    match
      _setProxyToToxOptions P opts
        {| ipv6enabled := if ipv6_in_force ipv6 then 1 else 0;
           udp_disabled := if udp_in_force udp then 0 else 1;
           proxy_type := TOX_PROXY_TYPE_NONE (consts P);
           proxy_address := repeat x00 256;
           proxy_port := 0;
           start_port := start_port (new_ToxOptions (uninit P));
           end_port := end_port (new_ToxOptions (uninit P)) |}
    with
    | (Normal _, o) => (Normal o, o)
    | (Throw e, o) => (Throw e, o)
    end.
Proof.
  intros Hnone Hipv6 Hudp.
  unfold _createToxOptions, _createToxOptions_body, assign_proxy_type.
  unfold bind at 1. unfold lift at 1. rewrite Hipv6.
  unfold bind at 1. unfold lift at 1. rewrite Hudp.
  unfold bind at 1, modify at 1.
  unfold bind at 1. unfold bind at 1, lift at 1.
  rewrite (store_uint_in_range 8 _ Hnone).
  unfold modify at 1.
  unfold bind at 1, lift at 1.
  change (store_uint 16 0) with (Normal (A:=Z) 0). cbv iota beta.
  unfold bind at 1, modify at 1.
  unfold bind at 1, modify at 1.
  unfold bind at 1, modify at 1.
  unfold bind at 1.
  reflexivity.
Qed.

Lemma Qfloor_inject_Z (z : Z) : Qfloor (inject_Z z) = z.
Proof. unfold Qfloor, inject_Z. apply Z.div_1_r. Qed.

Lemma store_number_integer (P : Platform) (p : Z) :
  0 <= p < 65536 -> store_number P (Fin (inject_Z p)) = Normal p.
Proof.
  intros [Hlo Hhi]. unfold store_number.
  rewrite Qfloor_inject_Z, Qeq_bool_refl.
  apply Z.leb_le in Hlo. change (2 ^ 16) with 65536.
  apply Z.ltb_lt in Hhi. now rewrite Hlo, Hhi.
Qed.

Ltac enter_guarded_block P Hres Hobj o :=
  unfold _setProxyToToxOptions, resolved_proxy in *;
  unfold bind at 1, lift at 1;
  let p0 := fresh "p0" in
  destruct (get _ "proxy") as [p0|]; [|discriminate];
  let Hstep := fresh "Hstep" in
  assert (Hstep :
    (match p0 with VString s => lift (parseProxy P s) | _ => ret p0 end) o
    = (Normal _, o))
    by (destruct p0; unfold lift, ret; rewrite <- Hres; reflexivity);
  unfold bind at 1; rewrite Hstep, Hobj; clear Hstep.


Lemma recognised_type_step (P : Platform) (none http socks5 kind p : Z)
    (opts proxy : Value) (t a : string) (o : ToxOptions) :
  binds_proxy_names P none http socks5 ->
  resolved_proxy P opts = Normal proxy ->
  isObject proxy = true ->
  get proxy "type" = Normal (VString t) ->
  selected_kind http socks5 t = Some kind ->
  kind <> none ->
  get proxy "address" = Normal (VString a) ->
  get proxy "port" = Normal (VNumber (Fin (inject_Z p))) ->
  0 <= p < 65536 ->
  _setProxyToToxOptions P opts o =
    (Normal tt,
     {| ipv6enabled := ipv6enabled o;
        udp_disabled := udp_disabled o;
        proxy_type := kind;
        proxy_address :=
          Buffer.write (proxy_address o) a (List.length (proxy_address o) - 1);
        proxy_port := p;
        start_port := start_port o;
        end_port := end_port o |}).
Proof.
  intros (Hn0 & Hn & Hh & Hs & Rn & Rh & Rs) Hres Hobj Htype Hkind Hne
    Haddr Hport Rp.
  enter_guarded_block P Hres Hobj o.
  cbv [bind lift ret throw read modify free_identifier assign_proxy_type].
  rewrite Hn0, (store_uint_in_range 8 _ Rn), Htype, Hn, Haddr, Hport,
    (store_number_integer P p Rp).
  assert (Hgo : negb (kind =? none) = true)
    by (destruct (Z.eqb_spec kind none); [contradiction | reflexivity]).
  unfold selected_kind in Hkind.
  destruct (test_http t).
  - inversion Hkind; subst kind.
    rewrite Hh, (store_uint_in_range 8 _ Rh).
    cbn [proxy_type set_proxy_type]. rewrite Hgo. reflexivity.
  - destruct (test_socks5 t); [|discriminate].
    inversion Hkind; subst kind.
    rewrite Hs, (store_uint_in_range 8 _ Rs).
    cbn [proxy_type set_proxy_type]. rewrite Hgo. reflexivity.
Qed.

(** The flag for IPv6: every struct the builder returns has
    [ipv6enabled = 1] when the option [ipv6] is given and truthy, and
    [ipv6enabled = 0] when it is omitted or falsy, whatever the proxy
    step did. *)
Theorem ipv6_flag_follows_option (P : Platform) (opts ipv6 : Value)
    (o : ToxOptions) :
  get opts "ipv6" = Normal ipv6 ->
  fst (_createToxOptions P opts) = Normal o ->
  ipv6enabled o = if ipv6_in_force ipv6 then 1 else 0.
Proof.
  intros Hget Hrun.
  destruct (createToxOptions_normal P opts o Hrun)
    as (ipv6' & udp' & Hipv6' & _ & _ & Hflag & _).
  rewrite Hget in Hipv6'. inversion Hipv6'; subst. exact Hflag.
Qed.

Lemma ipv6_flag_follows_option_witness :
  ipv6enabled (snd (_createToxOptions patched_platform socks_proxy)) = 1.
Proof.
  apply (ipv6_flag_follows_option patched_platform socks_proxy (VBool true));
    vm_compute; reflexivity.
Defined.

(** The proxy step reaches only the proxy fields: whether it returns or
    throws, [ipv6enabled], [udp_disabled], [start_port] and [end_port]
    are as they were. *)
Theorem proxy_step_keeps_other_fields (P : Platform) (opts : Value)
    (o : ToxOptions) :
  same_frame o (snd (_setProxyToToxOptions P opts o)).
Proof.
  destruct (_setProxyToToxOptions P opts o) as [r o'] eqn:Hrun.
  apply setProxy_touches in Hrun. apply Hrun.
Qed.

(** A proxy that is neither a string nor an object, or a string that
    [parseProxy] does not turn into an object, is passed over in
    silence: the builder returns the struct with the two flags as the
    options give them, proxy type none, a cleared address and port 0. *)
Theorem non_object_proxy_is_passed_over (P : Platform)
    (opts ipv6 udp proxy : Value) :
  0 <= TOX_PROXY_TYPE_NONE (consts P) < 256 ->
  get opts "ipv6" = Normal ipv6 ->
  get opts "udp" = Normal udp ->
  resolved_proxy P opts = Normal proxy ->
  isObject proxy = false ->
  let built :=
    {| ipv6enabled := if ipv6_in_force ipv6 then 1 else 0;
       udp_disabled := if udp_in_force udp then 0 else 1;
       proxy_type := TOX_PROXY_TYPE_NONE (consts P);
       proxy_address := repeat x00 256;
       proxy_port := 0;
       start_port := start_port (new_ToxOptions (uninit P));
       end_port := end_port (new_ToxOptions (uninit P)) |} in
  _createToxOptions P opts = (Normal built, built).
Proof.
  intros Hnone Hipv6 Hudp Hres Hobj built.
  rewrite (builder_reaches_proxy_step P opts ipv6 udp Hnone Hipv6 Hudp).
  rewrite (other_proxy_ignored P opts proxy _ Hres Hobj). reflexivity.
Qed.

Lemma non_object_proxy_is_passed_over_witness :
  fst (_createToxOptions node_platform
         (VObject [("udp", VNumber (Fin 0)); ("proxy", VNumber (Fin 8080))]))
  = Normal {| ipv6enabled := 0; udp_disabled := 1; proxy_type := 0;
              proxy_address := repeat x00 256; proxy_port := 0;
              start_port := 65535; end_port := 65535 |}.
Proof.
  rewrite (non_object_proxy_is_passed_over node_platform
             (VObject [("udp", VNumber (Fin 0)); ("proxy", VNumber (Fin 8080))])
             VUndefined (VNumber (Fin 0)) (VNumber (Fin 8080))).
  - reflexivity.
  - simpl. lia.
  - reflexivity.
  - reflexivity.
  - reflexivity.
  - reflexivity.
Defined.

(** Where the global scope binds the four names, with the kinds distinct
    from none: a proxy object whose type spells http, socks or socks5 in
    any letter case, with a string address and an integer port of 16
    bits, gives the struct the selected kind, the address written over
    the cleared array with room for 255 bytes, and the port. *)
Theorem recognised_proxy_is_configured (P : Platform)
    (none http socks5 kind p : Z) (opts ipv6 udp proxy : Value)
    (t a : string) :
  0 <= TOX_PROXY_TYPE_NONE (consts P) < 256 ->
  binds_proxy_names P none http socks5 ->
  get opts "ipv6" = Normal ipv6 ->
  get opts "udp" = Normal udp ->
  resolved_proxy P opts = Normal proxy ->
  isObject proxy = true ->
  get proxy "type" = Normal (VString t) ->
  selected_kind http socks5 t = Some kind ->
  kind <> none ->
  get proxy "address" = Normal (VString a) ->
  get proxy "port" = Normal (VNumber (Fin (inject_Z p))) ->
  0 <= p < 65536 ->
  let built :=
    {| ipv6enabled := if ipv6_in_force ipv6 then 1 else 0;
       udp_disabled := if udp_in_force udp then 0 else 1;
       proxy_type := kind;
       proxy_address := Buffer.write (repeat x00 256) a 255;
       proxy_port := p;
       start_port := start_port (new_ToxOptions (uninit P));
       end_port := end_port (new_ToxOptions (uninit P)) |} in
  _createToxOptions P opts = (Normal built, built).
Proof.
  intros Hnone Hnames Hipv6 Hudp Hres Hobj Htype Hkind Hne Haddr Hport Rp built.
  rewrite (builder_reaches_proxy_step P opts ipv6 udp Hnone Hipv6 Hudp).
  rewrite (recognised_type_step P none http socks5 kind p opts proxy t a _
             Hnames Hres Hobj Htype Hkind Hne Haddr Hport Rp).
  reflexivity.
Qed.

Lemma recognised_proxy_is_configured_witness :
  fst (_createToxOptions patched_platform socks_proxy)
  = Normal {| ipv6enabled := 1; udp_disabled := 0; proxy_type := 2;
              proxy_address := Buffer.utf8 "10.0.0.1" ++ repeat x00 248;
              proxy_port := 9050;
              start_port := 65535; end_port := 65535 |}.
Proof.
  rewrite (recognised_proxy_is_configured patched_platform 0 1 2 2 9050
             socks_proxy (VBool true) VUndefined
             (VObject [("type", VString "socks5");
                       ("address", VString "10.0.0.1");
                       ("port", VNumber (Fin (inject_Z 9050)))])
             "socks5" "10.0.0.1").
  - reflexivity.
  - simpl. lia.
  - unfold binds_proxy_names. simpl. repeat split; try reflexivity; lia.
  - reflexivity.
  - reflexivity.
  - reflexivity.
  - reflexivity.
  - reflexivity.
  - reflexivity.
  - discriminate.
  - reflexivity.
  - reflexivity.
  - lia.
Defined.



(** ** The address as the engine reads it *)

Lemma utf8_fit_whole (s : string) :
  forall room,
    (List.length (Buffer.utf8 s) <= room)%nat ->
    Buffer.utf8_fit room s = Buffer.utf8 s.
Proof.
  induction s as [|c rest IH]; intros room Hfit; simpl in *.
  - reflexivity.
  - rewrite length_app in Hfit.
    destruct (Nat.leb_spec (List.length (Buffer.utf8_char c)) room) as [_|Hgt];
      [|lia].
    rewrite IH by lia. reflexivity.
Qed.

Lemma c_string_stops (bs rest : list byte) :
  ~ In x00 bs -> c_string (bs ++ x00 :: rest) = bs.
Proof.
  induction bs as [|b bs IH]; intros Hnz; simpl.
  - reflexivity.
  - destruct (Byte.eqb b x00) eqn:Hb.
    + exfalso. apply Hnz. left. symmetry. now apply Byte.byte_dec_bl.
    + rewrite IH; [reflexivity|]. intros Hin. apply Hnz. now right.
Qed.

Lemma c_string_cleared (n : nat) : c_string (repeat x00 n) = [].
Proof. destruct n; reflexivity. Qed.

(** An address that fits is read back whole: in every struct the
    builder returns, the address array is cleared or holds the
    [address] string of the proxy, and when the encoding of that string
    has at most 255 bytes, none of them zero, the bytes up to the first
    zero of the array are that encoding. *)
Theorem fitting_address_reads_back (P : Platform) (opts : Value)
    (o : ToxOptions) :
  fst (_createToxOptions P opts) = Normal o ->
  proxy_address o = repeat x00 256 \/
  exists proxy a,
    resolved_proxy P opts = Normal proxy /\
    get proxy "address" = Normal (VString a) /\
    ((List.length (Buffer.utf8 a) <= 255)%nat ->
     ~ In x00 (Buffer.utf8 a) ->
     c_string (proxy_address o) = Buffer.utf8 a).
Proof.
  intros Hrun.
  destruct (createToxOptions_normal P opts o Hrun)
    as (ipv6 & udp & _ & _ & _ & _ & _ & _ & _ & Haddr).
  destruct Haddr as [Hzero | (proxy & a & Hres & Ha & Hw)]; [now left|].
  right. exists proxy, a. repeat split; try assumption.
  intros Hfit Hnz. rewrite Hw, write_cleared.
  change (Nat.min 255 256) with 255%nat.
  rewrite (utf8_fit_whole a 255 Hfit).
  destruct (256 - List.length (Buffer.utf8 a))%nat as [|k] eqn:Hk; [lia|].
  cbn [repeat]. now apply c_string_stops.
Qed.

Lemma fitting_address_reads_back_witness :
  c_string (proxy_address (snd (_createToxOptions patched_platform socks_proxy)))
  = Buffer.utf8 "10.0.0.1".
Proof.
  assert (Hrun : fst (_createToxOptions patched_platform socks_proxy)
                 = Normal (snd (_createToxOptions patched_platform socks_proxy)))
    by (vm_compute; reflexivity).
  destruct (fitting_address_reads_back _ _ _ Hrun)
    as [Hzero | (proxy & a & Hres & Ha & Hback)].
  - vm_compute in Hzero. discriminate.
  - vm_compute. reflexivity.
Defined.

(** ** More on creation *)

(** A constructor that fails before the creation call leaves the world
    alone: when the builder throws, or when the library cannot be bound,
    the constructor throws that same error, and the engine has taken no
    call. *)
Theorem constructor_stops_before_engine (Eng : Type) (P : Platform)
    (ffi_Library : Value -> Completion (Library Eng)) (opts : Value)
    (w : World Eng) :
  let given := if negb (ToBoolean opts) then VObject [] else opts in
  (forall e,
     fst (_createToxOptions P given) = Throw e ->
     Tox_new P ffi_Library opts w = (Throw e, w)) /\
  (forall o libpath e,
     fst (_createToxOptions P given) = Normal o ->
     get given "path" = Normal libpath ->
     createLibrary ffi_Library libpath = Throw e ->
     Tox_new P ffi_Library opts w = (Throw e, w)).
Proof.
  intros given. split.
  - intros e Hbuild.
    destruct (given_options_readable opts "path") as [libpath Hpath].
    fold given in Hpath. unfold Tox_new. fold given.
    unfold bind at 1, lift at 1. rewrite Hpath.
    unfold bind at 1, lift at 1. rewrite Hbuild. reflexivity.
  - intros o libpath e Hbuild Hpath Hlib.
    unfold Tox_new. fold given.
    unfold bind at 1, lift at 1. rewrite Hpath.
    unfold bind at 1, lift at 1. rewrite Hbuild.
    unfold bind at 1, lift at 1. rewrite Hlib. reflexivity.
Qed.

(** In a global scope that does not bind [TOX_PROXY_NONE], the
    constructor given a proxy that is an object, or a string that
    [parseProxy] turns into one, throws the [ReferenceError] for that
    name; no library is bound and the engine takes no call. *)
Theorem constructor_rejects_object_proxy (Eng : Type) (P : Platform)
    (ffi_Library : Value -> Completion (Library Eng)) (opts proxy : Value)
    (w : World Eng) :
  0 <= TOX_PROXY_TYPE_NONE (consts P) < 256 ->
  global P "TOX_PROXY_NONE" = None ->
  ToBoolean opts = true ->
  resolved_proxy P opts = Normal proxy ->
  isObject proxy = true ->
  Tox_new P ffi_Library opts w = (Throw (ReferenceError "TOX_PROXY_NONE"), w).
Proof.
  intros Hnone Hglobal Htruthy Hres Hobj.
  apply (proj1 (constructor_stops_before_engine Eng P ffi_Library opts w)).
  rewrite Htruthy. cbn [negb].
  assert (Hread : forall k, exists v, get opts k = Normal v).
  { intros k. destruct (given_options_readable opts k) as [v Hv].
    rewrite Htruthy in Hv. cbn [negb] in Hv. eauto. }
  destruct (Hread "ipv6") as [ipv6 Hipv6].
  destruct (Hread "udp") as [udp Hudp].
  rewrite (builder_reaches_proxy_step P opts ipv6 udp Hnone Hipv6 Hudp).
  rewrite (object_proxy_throws P opts proxy _ Hglobal Hres Hobj).
  reflexivity.
Qed.

Lemma constructor_rejects_object_proxy_witness :
  Tox_new node_platform (fun _ => Normal (scripted 0 (true, 0))) socks_proxy world0
  = (Throw (ReferenceError "TOX_PROXY_NONE"), world0).
Proof.
  apply (constructor_rejects_object_proxy nat node_platform
           (fun _ => Normal (scripted 0 (true, 0))) socks_proxy
           (VObject [("type", VString "socks5");
                     ("address", VString "10.0.0.1");
                     ("port", VNumber (Fin (inject_Z 9050)))])
           world0).
  - simpl. lia.
  - reflexivity.
  - reflexivity.
  - reflexivity.
  - reflexivity.
Defined.

(** ** What the errors tell *)

Lemma to_int_not_nil (z : Z) :
  Z.to_int z <> Decimal.Pos Decimal.Nil /\ Z.to_int z <> Decimal.Neg Decimal.Nil.
Proof.
  destruct z as [|p|p]; simpl; split; try discriminate.
  - intros H. inversion H as [Hp]. now apply DecimalPos.Unsigned.to_uint_nonnil in Hp.
  - intros H. inversion H as [Hp]. now apply DecimalPos.Unsigned.to_uint_nonnil in Hp.
Qed.

Lemma string_of_Z_injective (a b : Z) :
  string_of_Z a = string_of_Z b -> a = b.
Proof.
  unfold string_of_Z. intros Heq.
  destruct (to_int_not_nil a) as [Ha1 Ha2].
  destruct (to_int_not_nil b) as [Hb1 Hb2].
  pose proof (NilZero.isi (Z.to_int a) Ha1 Ha2) as Ia.
  pose proof (NilZero.isi (Z.to_int b) Hb1 Hb2) as Ib.
  rewrite Heq, Ib in Ia. inversion Ia as [Hab].
  rewrite <- (DecimalZ.of_to a), <- (DecimalZ.of_to b). now rewrite Hab.
Qed.

(** The errors name their cause.  Two status values that are not OK give
    different errors, for creation and for bootstrap alike, so the status
    can be read back from the error; and no status gives the error that
    [bootstrapSync] and [bootstrap] keep for a [false] result with status
    OK. *)
Theorem errors_tell_status_apart (P : Platform) (st st' : Z) :
  (_checkToxNewError P st <> Normal tt ->
   _checkToxNewError P st = _checkToxNewError P st' -> st = st') /\
  (_getToxBootstrapError P st <> None ->
   _getToxBootstrapError P st = _getToxBootstrapError P st' -> st = st') /\
  _getToxBootstrapError P st <> Some returned_false.
Proof.
  unfold _checkToxNewError, _getToxBootstrapError, returned_false.
  split; [|split].
  - destruct (st =? TOX_ERR_NEW_OK (consts P)); cbn [negb];
      [intros H; now contradiction H|].
    intros _. destruct (st' =? TOX_ERR_NEW_OK (consts P)); cbn [negb];
      [discriminate|].
    intros Heq. inversion Heq as [Hmsg]. now apply string_of_Z_injective.
  - destruct (st =? TOX_ERR_BOOTSTRAP_OK (consts P)); cbn [negb];
      [intros H; now contradiction H|].
    intros _. destruct (st' =? TOX_ERR_BOOTSTRAP_OK (consts P)); cbn [negb];
      [discriminate|].
    intros Heq. inversion Heq as [Hmsg]. now apply string_of_Z_injective.
  - destruct (st =? TOX_ERR_BOOTSTRAP_OK (consts P)); cbn [negb];
      [discriminate|].
    intros Heq. inversion Heq.
Qed.

(** ** More on bootstrap *)

Lemma utf8_app (s t : string) :
  Buffer.utf8 (s ++ t) = Buffer.utf8 s ++ Buffer.utf8 t.
Proof.
  induction s as [|c rest IH]; simpl.
  - reflexivity.
  - rewrite IH. now rewrite app_assoc.
Qed.

(** The address crosses as a C string: in both variants the engine
    receives the encoding of the address followed by one zero byte. *)
Theorem bootstrap_address_is_terminated (Eng : Type) (P : Platform)
    (this : Tox Eng) (address : string) (port : Value) (bytes : list byte)
    (w : World Eng) (cb : option (option Error -> M (World Eng) unit)) :
  exists res st e,
    tox_bootstrap (_library this) (engine w) (_handle this)
      (Buffer.utf8 address ++ [x00]) port (VBuffer bytes) = (e, (res, st)) /\
    calls (snd (bootstrapSync P address port (VBuffer bytes) this w))
    = calls w ++
      [Call_tox_bootstrap (_handle this) (Buffer.utf8 address ++ [x00])
         port (VBuffer bytes) res st] /\
    bootstrap P address port (VBuffer bytes) cb this w
    = bootstrap_done P st cb None res
        (crossed e
           (Call_tox_bootstrap (_handle this) (Buffer.utf8 address ++ [x00])
              port (VBuffer bytes) res st) w).
Proof.
  unfold bootstrapSync, bootstrap, bind, lift, native_bootstrap,
    getLibrary, getHandle.
  rewrite utf8_app. change (Buffer.utf8 (String zero EmptyString)) with [x00].
  destruct (tox_bootstrap _ _ _ _ _ _) as [e [res st]].
  exists res, st, e. cbn [fst snd]. split; [reflexivity|]. split; [|reflexivity].
  destruct (_getToxBootstrapError P st); [reflexivity|].
  destruct res; reflexivity.
Qed.

(** A key that cannot be decoded never crosses: when [fromHex] throws on
    the key string, both variants throw that error at once, the engine
    takes no call and the callback is not run. *)
Theorem undecodable_key_never_crosses (Eng : Type) (P : Platform)
    (this : Tox Eng) (address s : string) (port : Value) (w : World Eng)
    (cb : option (option Error -> M (World Eng) unit)) (e : Error) :
  fromHex P (Buffer.utf8 s) = Throw e ->
  bootstrapSync P address port (VString s) this w = (Throw e, w) /\
  bootstrap P address port (VString s) cb this w = (Throw e, w).
Proof.
  intros Hhex. unfold bootstrapSync, bootstrap.
  split; unfold bind at 1, lift at 1; rewrite Hhex; reflexivity.
Qed.

Lemma undecodable_key_never_crosses_witness :
  bootstrapSync node_platform "198.51.100.7" (VNumber (Fin 33445))
    (VString "0aF") (tox0 (scripted 0 (true, 0))) world0
  = (Throw (MkError "This is not hexadecimal."), world0).
Proof.
  exact (proj1 (undecodable_key_never_crosses nat node_platform
                  (tox0 (scripted 0 (true, 0))) "198.51.100.7" "0aF"
                  (VNumber (Fin 33445)) world0 None
                  (MkError "This is not hexadecimal.") eq_refl)).
Defined.

(** An error of the foreign-function layer comes first: the function
    that [bootstrap] hands to the asynchronous call passes such an error
    to the callback as it is, whatever the status and the result. *)
Theorem foreign_error_comes_first (Eng : Type) (P : Platform) (eptr : Z)
    (res : bool) (e : Error) (cb : option Error -> M (World Eng) unit)
    (w : World Eng) :
  bootstrap_done P eptr (Some cb) (Some e) res w = cb (Some e) w.
Proof.
  unfold bootstrap_done. destruct (_getToxBootstrapError P eptr); reflexivity.
Qed.

(** ** More on the iterate loop *)

(** A usable [wait] is kept: on an object that is not started, a [wait]
    that is a number (after coercion) above 0 is handed to the timer as
    it was given, with no default in its place. *)
Theorem start_keeps_usable_wait (Eng : Type) (P : Platform) (this : Tox Eng)
    (wait : Value) (w : World Eng) :
  isStarted this = false ->
  isNaN P wait = false ->
  le_zero P wait = false ->
  start P wait this w =
    (Normal (set_interval (Some (next_timer w)) this),
     {| engine := engine w; calls := calls w;
        timers := timers w ++
                  [{| timer_id := next_timer w;
                      timer_library := _library this;
                      timer_handle := _handle this;
                      timer_wait := wait |}];
        next_timer := S (next_timer w) |}).
Proof.
  intros Hidle Hnum Hpos. unfold start. rewrite Hidle, Hnum, Hpos. reflexivity.
Qed.

Lemma start_keeps_usable_wait_witness :
  timers (snd (start node_platform (VNumber (Fin (1 # 2)))
                 (tox0 (scripted 0 (true, 0))) world0))
  = [{| timer_id := O; timer_library := scripted 0 (true, 0);
        timer_handle := 4096; timer_wait := VNumber (Fin (1 # 2)) |}].
Proof.
  rewrite (start_keeps_usable_wait nat node_platform
             (tox0 (scripted 0 (true, 0))) (VNumber (Fin (1 # 2))) world0
             eq_refl eq_refl eq_refl).
  reflexivity.
Defined.


Lemma filter_drops_new {Eng} (ts : list (Timer Eng)) (t : Timer Eng) :
  Forall (fun u => (timer_id u < timer_id t)%nat) ts ->
  filter (fun u => negb (Nat.eqb (timer_id u) (timer_id t))) (ts ++ [t]) = ts.
Proof.
  intros Hfresh. rewrite filter_app. cbn [filter].
  rewrite Nat.eqb_refl. cbn [negb]. rewrite app_nil_r.
  induction Hfresh as [|u us Hu _ IH]; cbn [filter].
  - reflexivity.
  - destruct (Nat.eqb_spec (timer_id u) (timer_id t)) as [Heq|_]; [lia|].
    cbn [negb]. now rewrite IH.
Qed.

(** [stop] undoes [start]: on an object that is not started, in a world
    whose timers all carry earlier identities, [start] followed by [stop]
    gives back the object as it was and the timers as they were; only
    the identity of the next timer has moved on. *)
Theorem stop_undoes_start (Eng : Type) (P : Platform) (this : Tox Eng)
    (wait : Value) (w : World Eng) :
  isStarted this = false ->
  fresh_ids w ->
  (this1_w1 <- start P wait this ;; stop this1_w1) w =
    (Normal this,
     {| engine := engine w; calls := calls w; timers := timers w;
        next_timer := S (next_timer w) |}).
Proof.
  intros Hidle Hfresh.
  assert (Hnone : _interval this = None)
    by (unfold isStarted in Hidle; destruct (_interval this);
        [discriminate | reflexivity]).
  unfold start. rewrite Hidle. cbn [negb].
  destruct this as [lib h i]. cbn [_interval] in Hnone. subst i.
  destruct w as [e cs ts nt]. unfold fresh_ids in Hfresh.
  cbn [timers next_timer] in Hfresh.
  cbv [bind setInterval ret stop clearInterval modify set_interval _interval
       _library _handle getLibrary getHandle timers engine calls next_timer].
  pose proof (filter_drops_new ts
                {| timer_id := nt; timer_library := lib; timer_handle := h;
                   timer_wait := if isNaN P wait || le_zero P wait
                                 then VNumber (Fin 40) else wait |} Hfresh)
    as Hold.
  cbn [timer_id] in Hold. rewrite Hold. reflexivity.
Qed.

Lemma stop_undoes_start_witness :
  (this1_w1 <- start node_platform VUndefined (tox0 (scripted 0 (true, 0))) ;;
   stop this1_w1) world0
  = (Normal (tox0 (scripted 0 (true, 0))),
     {| engine := O; calls := []; timers := []; next_timer := 1%nat |}).
Proof.
  apply (stop_undoes_start nat node_platform (tox0 (scripted 0 (true, 0)))
           VUndefined world0 eq_refl).
  constructor.
Defined.

(** The teardown does not stop the loop: [killSync] leaves every timer
    in place, so a period that comes after it still calls [tox_iterate],
    on the handle that was just killed when the timer is this object's. *)
Theorem kill_leaves_loop_running (Eng : Type) (this : Tox Eng)
    (w : World Eng) (t : Timer Eng) :
  In t (timers w) ->
  let w1 := snd (killSync this w) in
  timers w1 = timers w /\
  In t (timers w1) /\
  fst (fire t w1) = Normal tt /\
  calls (snd (fire t w1))
  = calls w ++ [Call_tox_kill (_handle this); Call_tox_iterate (timer_handle t)].
Proof.
  intros Hin w1. subst w1.
  unfold killSync, fire, iterateSync, crossed, getHandle, getLibrary.
  cbn [fst snd timers calls _handle].
  repeat split; try assumption. now rewrite <- app_assoc.
Qed.

Lemma kill_leaves_loop_running_witness :
  calls (snd (fire {| timer_id := O; timer_library := scripted 0 (true, 0);
                      timer_handle := 4096; timer_wait := VNumber (Fin 40) |}
                (snd (killSync
                        {| _library := scripted 0 (true, 0); _handle := 4096;
                           _interval := Some O |}
                        (snd (start node_platform VUndefined
                                (tox0 (scripted 0 (true, 0))) world0))))))
  = [Call_tox_kill 4096; Call_tox_iterate 4096].
Proof.
  refine (proj2 (proj2 (proj2 (kill_leaves_loop_running nat
    {| _library := scripted 0 (true, 0); _handle := 4096; _interval := Some O |}
    (snd (start node_platform VUndefined (tox0 (scripted 0 (true, 0))) world0))
    {| timer_id := O; timer_library := scripted 0 (true, 0);
       timer_handle := 4096; timer_wait := VNumber (Fin 40) |} _)))).
  left. reflexivity.
Defined.

(** Each period is one call of [tox_iterate] and nothing else: [n]
    periods of a timer add [n] such calls on the timer's handle to the
    record, and change neither the timers nor the object. *)
Theorem periods_only_iterate (Eng : Type) (t : Timer Eng) (n : nat) :
  forall w : World Eng,
    fst (periods n t w) = Normal tt /\
    calls (snd (periods n t w))
    = calls w ++ repeat (Call_tox_iterate (timer_handle t)) n /\
    timers (snd (periods n t w)) = timers w /\
    next_timer (snd (periods n t w)) = next_timer w.
Proof.
  induction n as [|n IH]; intros w.
  - cbn. rewrite app_nil_r. repeat split.
  - cbn [periods]. unfold bind.
    destruct (fire t w) as [r w1] eqn:Hfire.
    unfold fire, iterateSync, crossed, getHandle, getLibrary in Hfire.
    cbn [_handle _library] in Hfire. inversion Hfire; subst r w1; clear Hfire.
    destruct (IH (crossed
                    (tox_iterate (timer_library t) (engine w) (timer_handle t))
                    (Call_tox_iterate (timer_handle t)) w))
      as (Hret & Hcalls & Htimers & Hnext).
    unfold crossed in *. cbn [calls timers next_timer] in *.
    repeat split; try assumption.
    rewrite Hcalls, <- app_assoc. reflexivity.
Qed.

(** ** The save data *)

Lemma crossed_no_savedata {Eng} (e : Eng) (c : Call) (w : World Eng) :
  is_savedata_call c = false ->
  no_savedata_call w -> no_savedata_call (crossed e c w).
Proof.
  intros Hc Hw. unfold no_savedata_call, crossed. cbn [calls].
  apply Forall_app. split; [exact Hw | repeat constructor; exact Hc].
Qed.

(** A name that neither prototype holds is no method: the call throws
    and the world is as it was. *)
Lemma call_of_missing_name {Eng} (P : Platform)
    (other : string -> Tox Eng -> M (World Eng) (Tox Eng))
    (name : string) (this : Tox Eng) (w : World Eng) :
  is_method name = false ->
  is_inherited name = false ->
  exists msg, call_statement P other name this w = (Throw (TypeError msg), w).
Proof.
  intros Hm Hi. unfold call_statement.
  assert (Hno : forall m, In m Tox_prototype -> String.eqb name m = false).
  { intros m Hin. destruct (String.eqb name m) eqn:Heq; [|reflexivity].
    unfold is_method in Hm. rewrite <- Hm. symmetry.
    apply existsb_exists. exists m. split; assumption. }
  rewrite (Hno "iterateSync"), (Hno "killSync"), (Hno "iterationIntervalSync"),
    (Hno "start"), (Hno "stop"), (Hno "isStarted"), (Hno "getHandle"),
    (Hno "getLibrary"), Hm, Hi by (cbn; tauto).
  eexists. reflexivity.
Qed.

Lemma bootstrapSync_no_savedata {Eng} (P : Platform) (this : Tox Eng)
    (address : string) (port publicKey : Value) (w : World Eng) :
  no_savedata_call w ->
  no_savedata_call (snd (bootstrapSync P address port publicKey this w)).
Proof.
  intros Hw. unfold bootstrapSync, bind, lift, native_bootstrap.
  destruct (match publicKey with
            | VString s => fromHex P (Buffer.utf8 s)
            | _ => Normal publicKey
            end) as [key|e]; [|exact Hw].
  destruct (tox_bootstrap _ _ _ _ _ _) as [e [res st]]. cbn [fst snd].
  destruct (_getToxBootstrapError P st); [|destruct res]; cbn [snd];
    apply crossed_no_savedata; auto.
Qed.

Lemma bootstrap_no_savedata {Eng} (P : Platform) (this : Tox Eng)
    (address : string) (port publicKey : Value)
    (cb : option (option Error -> M (World Eng) unit)) (w : World Eng) :
  (forall f, cb = Some f ->
     forall err w', no_savedata_call w' -> no_savedata_call (snd (f err w'))) ->
  no_savedata_call w ->
  no_savedata_call (snd (bootstrap P address port publicKey cb this w)).
Proof.
  intros Hcb Hw. unfold bootstrap, bind, lift, native_bootstrap, bootstrap_done.
  destruct (match publicKey with
            | VString s => fromHex P (Buffer.utf8 s)
            | _ => Normal publicKey
            end) as [key|e]; [|exact Hw].
  destruct (tox_bootstrap _ _ _ _ _ _) as [e [res st]]. cbn [fst snd].
  destruct cb as [f|].
  - apply (Hcb f eq_refl). apply crossed_no_savedata; auto.
  - apply crossed_no_savedata; auto.
Qed.

Lemma Tox_new_no_savedata {Eng} (P : Platform)
    (ffi_Library : Value -> Completion (Library Eng)) (opts : Value)
    (w : World Eng) :
  no_savedata_call w ->
  no_savedata_call (snd (Tox_new P ffi_Library opts w)).
Proof.
  intros Hw. unfold Tox_new.
  unfold bind at 1, lift at 1.
  destruct (get _ "path") as [libpath|]; [|exact Hw].
  unfold bind at 1, lift at 1.
  destruct (fst (_createToxOptions P _)) as [o|]; [|exact Hw].
  unfold bind at 1, lift at 1.
  destruct (createLibrary ffi_Library libpath) as [lib|]; [|exact Hw].
  unfold bind at 1.
  destruct (tox_new lib (engine w) (Some o) (size_t P 0)) as [e [h st]] eqn:Hnew.
  rewrite (initNew_spec Eng P lib (Some o) w e h st Hnew).
  destruct (st =? TOX_ERR_NEW_OK (consts P)); cbn [snd ret];
    apply crossed_no_savedata; auto.
Qed.

(** C8, as amended: the file has no [getSaveData].  [createLibrary]
    binds [tox_get_savedata_size] and [tox_get_savedata], no method of
    the object has that name, so the call [this.getSaveData()] throws
    with the world as it was; and no operation of the file asks the
    engine for the save data: the constructor, both bootstrap variants,
    [iterationIntervalSync], [iterateSync], [killSync], [kill], [start],
    [stop] and a period of the loop leave a record that holds no call of
    either native function as such a record. *)
Theorem binding_has_no_getSaveData (Eng : Type) (P : Platform)
    (ffi_Library : Value -> Completion (Library Eng))
    (other : string -> Tox Eng -> M (World Eng) (Tox Eng))
    (this : Tox Eng) (w : World Eng) (opts : Value) (address : string)
    (port publicKey wait : Value) (t : Timer Eng)
    (cb : option Error -> M (World Eng) unit) :
  (In "tox_get_savedata_size" bound_functions /\
   In "tox_get_savedata" bound_functions) /\
  (is_method "getSaveData" = false /\ is_inherited "getSaveData" = false) /\
  (exists msg,
     call_statement P other "getSaveData" this w = (Throw (TypeError msg), w)) /\
  (no_savedata_call w ->
   (forall err w', no_savedata_call w' -> no_savedata_call (snd (cb err w'))) ->
   no_savedata_call (snd (Tox_new P ffi_Library opts w)) /\
   no_savedata_call (snd (bootstrapSync P address port publicKey this w)) /\
   no_savedata_call (snd (bootstrap P address port publicKey None this w)) /\
   no_savedata_call (snd (bootstrap P address port publicKey (Some cb) this w)) /\
   no_savedata_call (snd (iterationIntervalSync this w)) /\
   no_savedata_call (snd (iterateSync this w)) /\
   no_savedata_call (snd (killSync this w)) /\
   no_savedata_call (snd (kill cb this w)) /\
   no_savedata_call (snd (start P wait this w)) /\
   no_savedata_call (snd (stop this w)) /\
   no_savedata_call (snd (fire t w))).
Proof.
  split; [split; cbn; tauto|]. split; [split; reflexivity|].
  split; [apply call_of_missing_name; reflexivity|].
  intros Hw Hcb.
  split; [apply Tox_new_no_savedata; exact Hw|].
  split; [apply bootstrapSync_no_savedata; exact Hw|].
  split; [apply bootstrap_no_savedata; [discriminate | exact Hw]|].
  split; [apply bootstrap_no_savedata;
          [intros f Hf; inversion Hf; subst f; exact Hcb | exact Hw]|].
  assert (Hkill : no_savedata_call (snd (killSync this w)))
    by (apply crossed_no_savedata; auto).
  split.
  { unfold iterationIntervalSync.
    destruct (tox_iteration_interval _ _ _) as [e ms]. cbn [snd].
    apply crossed_no_savedata; auto. }
  split; [apply crossed_no_savedata; auto|].
  split; [exact Hkill|].
  split; [unfold kill, bind; cbn [killSync]; apply Hcb; exact Hkill|].
  split.
  { unfold start, bind, setInterval, ret.
    destruct (negb (isStarted this)); exact Hw. }
  split.
  { unfold stop, bind, clearInterval, modify, ret.
    destruct (_interval this); exact Hw. }
  apply crossed_no_savedata; auto.
Qed.

(** C8, as stated, fails: on the sample object, [this.getSaveData()]
    throws a [TypeError], returns no buffer, and the engine is not asked
    for a size. *)
Lemma getSaveData_is_no_method :
  exists msg,
    call_statement node_platform (fun _ this => ret this) "getSaveData"
      (tox0 (scripted 0 (true, 0))) world0
    = (Throw (TypeError msg), world0).
Proof. eexists. reflexivity. Qed.

Lemma binding_has_no_getSaveData_witness :
  no_savedata_call
    (snd (Tox_new node_platform (fun _ => Normal (scripted 0 (true, 0)))
            VUndefined world0)) /\
  no_savedata_call
    (snd (kill (fun _ => ret tt) (tox0 (scripted 0 (true, 0))) world0)).
Proof.
  destruct (binding_has_no_getSaveData nat node_platform
              (fun _ => Normal (scripted 0 (true, 0))) (fun _ this => ret this)
              (tox0 (scripted 0 (true, 0))) world0 VUndefined "198.51.100.7"
              (VNumber (Fin 33445)) (VBuffer [x0a; xff]) VUndefined
              {| timer_id := O; timer_library := scripted 0 (true, 0);
                 timer_handle := 4096; timer_wait := VNumber (Fin 40) |}
              (fun _ => ret tt))
    as (_ & _ & _ & Hkeeps).
  destruct Hkeeps as (Hnew & _ & _ & _ & _ & _ & _ & Hkill & _).
  - constructor.
  - intros err w' Hw'. exact Hw'.
  - split; assumption.
Defined.
